(** * School-MCP setup helper: a shallow embedding of [setup_helper.py]

    The helper locates the Claude Desktop configuration file, resolves a
    Python runtime, the [school_mcp] package and the [school-mcp] launcher,
    reads a [.env] credentials file and upserts one server entry into the
    [mcpServers] section of the configuration.

    Python values are modelled by their JSON shape, dictionaries as
    insertion-ordered association lists, exceptions as an error result,
    and everything the script asks of its operating system (file system,
    search path, subprocess probes, standard input) as a record of
    oracles, [World].  Output and file writes are recorded in a trace. *)

From Stdlib Require Import String Ascii List Bool Arith ZArith Lia.
Import ListNotations.
Local Open Scope string_scope.
Local Open Scope list_scope.

(* ================================================================= *)
(** ** Exceptions and results *)

(** The exception classes the script can meet.  [OSError] stands for the
    operating-system errors other than [FileNotFoundError]
    (PermissionError, IsADirectoryError, ...). *)
Inductive exn : Type :=
  | TypeError
  | ValueError
  | JSONDecodeError
  | FileNotFoundError
  | OSError
  | UnicodeDecodeError
  | KeyError
  | EOFError.

Inductive result (A : Type) : Type :=
  | Ok (a : A)
  | Raise (e : exn).
Arguments Ok {A} a.
Arguments Raise {A} e.

Definition rbind {A B} (r : result A) (k : A -> result B) : result B :=
  match r with
  | Ok a => k a
  | Raise e => Raise e
  end.

Declare Scope result_scope.
Delimit Scope result_scope with result.
Notation "'let?' x ':=' r 'in' k" := (rbind r (fun x => k))
  (at level 10, x name, r at level 100, k at level 200) : result_scope.

(* ================================================================= *)
(** ** Python strings

  A [str] is modelled as a [string] whose characters are the code
  points 0..255. *)
Module PyStr.

Definition LF : ascii := ascii_of_nat 10.
Definition CR : ascii := ascii_of_nat 13.

(** [str.isspace] on one character, for code points below 256:
    TAB, LF, VT, FF, CR, FS, GS, RS, US, SPACE, NEL and NBSP. *)
Definition isspace (c : ascii) : bool :=
  let n := nat_of_ascii c in
  (((9 <=? n) && (n <=? 13)) || ((28 <=? n) && (n <=? 32))
   || (n =? 133) || (n =? 160))%nat.

Fixpoint lstrip (s : string) : string :=
  match s with
  | EmptyString => EmptyString
  | String c r => if isspace c then lstrip r else s
  end.

Fixpoint rstrip (s : string) : string :=
  match s with
  | EmptyString => EmptyString
  | String c r =>
      match rstrip r with
      | EmptyString => if isspace c then EmptyString else String c EmptyString
      | r' => String c r'
      end
  end.

(** [s.strip()] *)
Definition strip (s : string) : string := rstrip (lstrip s).

(** [s.lower()] on code points below 256: A-Z and the Latin-1 capitals
    (192..222 except the multiplication sign 215) move up by 32. *)
Definition lower_char (c : ascii) : ascii :=
  let n := nat_of_ascii c in
  if (((65 <=? n) && (n <=? 90))
      || ((192 <=? n) && (n <=? 222) && negb (n =? 215)))%nat
  then ascii_of_nat (n + 32) else c.

Fixpoint lower (s : string) : string :=
  match s with
  | EmptyString => EmptyString
  | String c r => String (lower_char c) (lower r)
  end.

(** [s.startswith(p)] *)
Definition startswith (p s : string) : bool := String.prefix p s.

(** [needle in s] for two strings: substring test. *)
Fixpoint contains (needle s : string) : bool :=
  String.prefix needle s ||
  match s with
  | EmptyString => false
  | String _ r => contains needle r
  end.

(** [s.split(sep, 1)] for a one-character separator: one piece when
    [sep] does not occur, otherwise the text before the first [sep] and
    everything after it. *)
Fixpoint split1 (sep : ascii) (s : string) : list string :=
  match s with
  | EmptyString => [EmptyString]
  | String c r =>
      if Ascii.eqb c sep then [EmptyString; r]
      else match split1 sep r with
           | [a; b] => [String c a; b]
           | _ => [s]
           end
  end.

(** [sep.join(items)] *)
Definition join (sep : string) (items : list string) : string :=
  String.concat sep items.

(** Truthiness of a string: the empty string is falsy. *)
Definition truthy (s : string) : bool :=
  match s with EmptyString => false | _ => true end.

(** Text-mode reading with the default [newline=None]: CR LF and a
    lone CR both arrive as LF. *)
Fixpoint universal_newlines (s : string) : string :=
  match s with
  | EmptyString => EmptyString
  | String c r =>
      if Ascii.eqb c CR then
        String LF
          match r with
          | String c' r' =>
              if Ascii.eqb c' LF then universal_newlines r'
              else universal_newlines r
          | EmptyString => EmptyString
          end
      else String c (universal_newlines r)
  end.

(** Iterating a text file: the lines in order, each keeping its
    terminating LF (the last one may have none). *)
Fixpoint iter_lines (s : string) : list string :=
  match s with
  | EmptyString => []
  | String c r =>
      if Ascii.eqb c LF then String c EmptyString :: iter_lines r
      else match iter_lines r with
           | [] => [String c EmptyString]
           | l :: ls => String c l :: ls
           end
  end.

End PyStr.

(* ================================================================= *)
(** ** Python dictionaries with string keys

  Insertion-ordered: assigning to an existing key keeps its position,
  assigning to a new key appends it. *)
Section Dict.
Context {V : Type}.

Definition dict : Type := list (string * V).

(** [d.get(k)] *)
Fixpoint dict_get (k : string) (d : dict) : option V :=
  match d with
  | [] => None
  | (k', v) :: r => if String.eqb k' k then Some v else dict_get k r
  end.

(** [k in d] *)
Definition dict_in (k : string) (d : dict) : bool :=
  match dict_get k d with Some _ => true | None => false end.

(** [d[k] = v] *)
Fixpoint dict_set (k : string) (v : V) (d : dict) : dict :=
  match d with
  | [] => [(k, v)]
  | (k', v') :: r =>
      if String.eqb k' k then (k', v) :: r
      else (k', v') :: dict_set k v r
  end.

(** The keys in iteration order. *)
Definition dict_keys (d : dict) : list string := map fst d.

End Dict.
Arguments dict V : clear implicits.

(* ================================================================= *)
(** ** JSON documents as Python objects

    What [json.load] returns: [None], [bool], [int], [float], [str],
    [list] and [dict].  A float is kept by its literal; the script never
    looks inside one. *)
#[warnings="-register-all"]
Inductive json : Type :=
  | JNull
  | JBool (b : bool)
  | JInt (n : Z)
  | JFloat (literal : string)
  | JStr (s : string)
  | JList (items : list json)
  | JDict (fields : list (string * json)).

(** [needle in obj] with a string needle: key membership for a dict,
    element equality for a list, substring for a str; the other types are
    not iterable. *)
Definition py_in (needle : string) (obj : json) : result bool :=
  match obj with
  | JDict d => Ok (dict_in needle d)
  | JList l =>
      Ok (existsb (fun x => match x with
                            | JStr s => String.eqb s needle
                            | _ => false
                            end) l)
  | JStr s => Ok (PyStr.contains needle s)
  | _ => Raise TypeError
  end.

(** [obj[key] = v] with a string key: only a dict accepts it. *)
Definition py_setitem (obj : json) (key : string) (v : json) : result json :=
  match obj with
  | JDict d => Ok (JDict (dict_set key v d))
  | _ => Raise TypeError
  end.

(** [obj[key]] with a string key. *)
Definition py_getitem (obj : json) (key : string) : result json :=
  match obj with
  | JDict d =>
      match dict_get key d with
      | Some v => Ok v
      | None => Raise KeyError
      end
  | _ => Raise TypeError
  end.

(** [try: body except Exception: handler]; every class of [exn] derives
    from [Exception]. *)
Definition try_except_Exception {A} (body handler : result A) : result A :=
  match body with
  | Ok a => Ok a
  | Raise _ => handler
  end.

(** Truthiness of a value that is a string or [None]. *)
Definition truthy_opt (o : option string) : bool :=
  match o with
  | Some s => PyStr.truthy s
  | None => false
  end.

(* ================================================================= *)
(** ** The world of one run *)

Inductive platform : Type :=
  | Darwin          (* sys.platform == 'darwin' *)
  | Win32           (* sys.platform == 'win32' *)
  | OtherPlatform.  (* anything else, Linux among them *)

(** What the script observes of its surroundings.  Each field is one
    library call; a path is its string.  The surroundings answer the
    same way throughout a run: nothing but the run changes them, and
    what the run writes it writes last. *)
Record World : Type := {
  sys_platform : platform;
  sys_executable : string;
  sys_stdin : list string;                   (* the lines [input] will read *)
  path_home : string;                        (* Path.home() *)
  environ_get : string -> option string;     (* os.environ.get(name) *)
  path_div : string -> string -> string;     (* Path(a) / b *)
  os_path_join : string -> string -> string;
  os_path_dirname : string -> string;
  os_path_exists : string -> bool;           (* os.path.exists, Path.exists *)
  os_getcwd : string;
  os_walk : string -> list (string * list string);
                                             (* (root, dirs) of each step *)
  site_getsitepackages : list string;
  import_school_mcp : option string;
    (* os.path.dirname(os.path.abspath(school_mcp.__file__)),
       [None] when the import raises ImportError *)
  shutil_which : string -> option string;
  subprocess_probe : string -> result string;
    (* stdout of [exe, "-c", "import school_mcp; print('Found')"] *)
  json_load : string -> result json;         (* open(path, 'r'); json.load *)
  read_text : string -> result string;       (* the decoded characters of a file *)
  json_dump : string -> json -> option exn;  (* open(path, 'w'); json.dump *)
  write_text : string -> string -> option exn;
  shutil_copy : string -> string -> option exn
}.

(** What a run does to its surroundings, in order. *)
Inductive event : Type :=
  | EPrint (text : string)
  | EPrintExn (text : string) (e : exn)      (* print(f"text{str(e)}") *)
  | EPrintJson (doc : json)                  (* print(json.dumps(doc, indent=4)) *)
  | EPrompt (text : string)                  (* input(text) *)
  | ECopyFile (src dst : string)
  | EWriteText (path content : string)
  | EWriteConfig (path : string) (doc : json).
                                             (* json.dump(doc, f, indent=2) *)

Record state : Type := {
  pending : list string;   (* input lines not yet read *)
  trace : list event
}.

(** A computation: it may raise, and it leaves a state either way. *)
Definition M (A : Type) : Type := state -> result A * state.

Definition ret {A} (a : A) : M A := fun st => (Ok a, st).

Definition bind {A B} (m : M A) (k : A -> M B) : M B :=
  fun st =>
    match m st with
    | (Ok a, st') => k a st'
    | (Raise e, st') => (Raise e, st')
    end.

Definition lift {A} (r : result A) : M A := fun st => (r, st).

Definition emit (e : event) : M unit :=
  fun st => (Ok tt, {| pending := pending st; trace := trace st ++ [e] |}).

Declare Scope M_scope.
Delimit Scope M_scope with M.
Notation "x <- m ;; k" := (bind m (fun x => k))
  (at level 61, m at next level, right associativity) : M_scope.
Notation "m ;; k" := (bind m (fun _ => k))
  (at level 61, right associativity) : M_scope.

Definition print (text : string) : M unit := emit (EPrint text).

(** [input(prompt)]: the prompt is shown, then one line is read;
    end of input raises [EOFError]. *)
Definition input (prompt : string) : M string :=
  fun st =>
    match pending st with
    | [] => (Raise EOFError,
             {| pending := []; trace := trace st ++ [EPrompt prompt] |})
    | line :: rest =>
        (Ok line, {| pending := rest; trace := trace st ++ [EPrompt prompt] |})
    end.

(** An effect that may raise: the attempt is recorded first. *)
Definition attempt (e : event) (outcome : option exn) : M unit :=
  fun st =>
    let st' := {| pending := pending st; trace := trace st ++ [e] |} in
    match outcome with
    | None => (Ok tt, st')
    | Some x => (Raise x, st')
    end.

(** [try: body except Exception as e: handler(e)] for a computation. *)
Definition try_except {A} (body : M A) (handler : exn -> M A) : M A :=
  fun st =>
    match body st with
    | (Ok a, st') => (Ok a, st')
    | (Raise e, st') => handler e st'
    end.

(* ================================================================= *)
(** ** The functions of [setup_helper.py] *)

Local Open Scope result_scope.

Definition config_name : string := "Claude/claude_desktop_config.json".

(** The candidate locations of [find_claude_config], by platform. *)
Definition possible_locations (w : World) : list string :=
  match sys_platform w with
  | Darwin =>
      [path_div w (path_home w)
         "Library/Application Support/Claude/claude_desktop_config.json"]
  | Win32 =>
      let app_data :=
        match environ_get w "APPDATA" with
        | Some v => v
        | None => EmptyString
        end in
      if PyStr.truthy app_data then [path_div w app_data config_name] else []
  | OtherPlatform =>
      let config_home :=
        match environ_get w "XDG_CONFIG_HOME" with
        | Some v => v
        | None => path_div w (path_home w) ".config"
        end in
      [path_div w config_home config_name]
  end.

Definition find_claude_config (w : World) : option string :=
  find (os_path_exists w) (possible_locations w).

Definition package_name : string := "school_mcp".

Definition get_package_path (w : World) : option string :=
  match import_school_mcp w with
  | Some package_dir => Some package_dir
  | None =>
      (* except ImportError *)
      match find (fun site_dir =>
                    os_path_exists w (os_path_join w site_dir package_name))
                 (site_getsitepackages w) with
      | Some site_dir => Some (os_path_join w site_dir package_name)
      | None =>
          let current_dir := os_getcwd w in
          let src_path :=
            os_path_join w (os_path_join w current_dir "src") package_name in
          if os_path_exists w src_path then Some src_path
          else
            match find (fun step => existsb (String.eqb package_name) (snd step))
                       (os_walk w current_dir) with
            | Some step => Some (os_path_join w (fst step) package_name)
            | None => None
            end
      end
  end.

(** The body shared by both [try] blocks of [find_python_executable]:
    run the probe and return the executable when "Found" is in its
    output.  [Some p] is [return p], [None] is falling out of the block. *)
Definition probe (w : World) (python_path : string) : result (option string) :=
  let? stdout := subprocess_probe w python_path in
  if PyStr.contains "Found" stdout then Ok (Some python_path) else Ok None.

Definition common_pythons : list string :=
  ["python"; "python3"; "python3.8"; "python3.9"; "python3.10"; "python3.11"].

(** The [for python_cmd in [...]] loop. *)
Fixpoint try_common_pythons (w : World) (cmds : list string)
  : result (option string) :=
  match cmds with
  | [] => Ok None
  | python_cmd :: rest =>
      let? found :=
        try_except_Exception
          (match shutil_which w python_cmd with
           | Some python_path =>
               if PyStr.truthy python_path then probe w python_path
               else Ok None
           | None => Ok None
           end)
          (Ok None) (* continue *) in
      match found with
      | Some python_path => Ok (Some python_path)
      | None => try_common_pythons w rest
      end
  end.

Definition find_python_executable (w : World) : result string :=
  let current_python := sys_executable w in
  let? found :=
    try_except_Exception (probe w current_python) (Ok None) (* pass *) in
  match found with
  | Some python_path => Ok python_path
  | None =>
      let? found := try_common_pythons w common_pythons in
      match found with
      | Some python_path => Ok python_path
      | None => Ok (sys_executable w)
      end
  end.

Definition script_name (w : World) : string :=
  match sys_platform w with
  | Win32 => "school-mcp" ++ ".exe"
  | _ => "school-mcp"
  end.

Definition scripts_dir_name (w : World) : string :=
  match sys_platform w with
  | Win32 => "Scripts"
  | _ => "bin"
  end.

Definition get_script_path (w : World) : result (option string) :=
  let script_path := shutil_which w (script_name w) in
  if truthy_opt script_path then Ok script_path
  else
    let? python_path := find_python_executable w in
    let scripts_dir :=
      os_path_join w (os_path_dirname w python_path) (scripts_dir_name w) in
    let potential_script := os_path_join w scripts_dir (script_name w) in
    if os_path_exists w potential_script then Ok (Some potential_script)
    else Ok None.

(** [key, value = pieces]: anything but two pieces is a [ValueError]. *)
Definition unpack2 (pieces : list string) : result (string * string) :=
  match pieces with
  | [key; value] => Ok (key, value)
  | _ => Raise ValueError
  end.

(** The [for line in f] loop of [load_env_file]. *)
Fixpoint load_env_lines (lines : list string) (env_vars : dict string)
  : result (dict string) :=
  match lines with
  | [] => Ok env_vars
  | line :: rest =>
      let line := PyStr.strip line in
      if negb (PyStr.truthy line) || PyStr.startswith "#" line
      then load_env_lines rest env_vars
      else
        let? kv := unpack2 (PyStr.split1 "=" line) in
        load_env_lines rest
          (dict_set (PyStr.strip (fst kv)) (PyStr.strip (snd kv)) env_vars)
  end.

Definition load_env_file (w : World) (env_path : string)
  : result (dict string) :=
  if os_path_exists w env_path then
    let? text := read_text w env_path in
    load_env_lines (PyStr.iter_lines (PyStr.universal_newlines text)) []
  else Ok [].

Local Open Scope M_scope.

Definition nl : string := String PyStr.LF EmptyString.

(** The example printed by [print_manual_instructions]. *)
Definition placeholder_env : json :=
  JDict [("CANVAS_ACCESS_TOKEN", JStr "your_canvas_token_here");
         ("CANVAS_DOMAIN", JStr "canvas.your_institution.edu");
         ("GRADESCOPE_EMAIL", JStr "your_email@your_institution.edu");
         ("GRADESCOPE_PASSWORD", JStr "your_gradescope_password")].

Definition module_args : json := JList [JStr "-m"; JStr "school_mcp"].

Definition config_example (script_path : option string) (python_path : string)
  : json :=
  JDict [("mcpServers",
          JDict [("school-tools",
                  if truthy_opt script_path then
                    JDict [("command",
                            JStr match script_path with
                                 | Some p => p
                                 | None => EmptyString
                                 end);
                           ("env", placeholder_env)]
                  else
                    JDict [("command", JStr python_path);
                           ("args", module_args);
                           ("env", placeholder_env)])])].

Definition manual_heading : string :=
  nl ++ "Manual Configuration Instructions:".

Definition print_manual_instructions (w : World) : M unit :=
  script_path <- lift (get_script_path w) ;;
  python_path <- lift (find_python_executable w) ;;
  print manual_heading ;;
  print "1. Open Claude Desktop" ;;
  print "2. Go to Settings > Developer > Edit Config" ;;
  print "3. Add the following to your claude_desktop_config.json:" ;;
  emit (EPrintJson (config_example script_path python_path)) ;;
  print (nl ++ "4. Replace the environment variable values with your actual credentials.") ;;
  print "5. Save the file and restart Claude Desktop".

(** Lines 155-161: read the existing config; a missing file or invalid
    JSON starts from an empty config, any other exception propagates. *)
Definition read_existing_config (w : World) (config_file : string)
  : result json :=
  match json_load w config_file with
  | Ok config => Ok config
  | Raise JSONDecodeError => Ok (JDict [])
  | Raise FileNotFoundError => Ok (JDict [])
  | Raise e => Raise e
  end.

(** Lines 163-165: [if 'mcpServers' not in config: config['mcpServers'] = {}] *)
Definition ensure_mcpServers (config : json) : result json :=
  (let? present := py_in "mcpServers" config in
   if negb present then py_setitem config "mcpServers" (JDict [])
   else Ok config)%result.

(** Line 248: [config['mcpServers']['school-tools'] = school_mcp_config].
    The dictionary that is updated is the one [config] holds under
    'mcpServers', so the update shows in [config] at the same key. *)
Definition add_to_config (config school_mcp_config : json) : result json :=
  (let? servers := py_getitem config "mcpServers" in
   let? servers' := py_setitem servers "school-tools" school_mcp_config in
   py_setitem config "mcpServers" servers')%result.

(** The two updates of the document taken together: what one run does to
    the decoded configuration. *)
Definition merge (config school_mcp_config : json) : result json :=
  (let? config' := ensure_mcpServers config in
   add_to_config config' school_mcp_config)%result.

(** The credentials as a JSON object. *)
Definition env_json (env_vars : dict string) : json :=
  JDict (map (fun kv => (fst kv, JStr (snd kv))) env_vars).

(** Truthiness of a dictionary or a list: empty is falsy. *)
Definition nonempty {A} (l : list A) : bool :=
  match l with [] => false | _ => true end.

(** Lines 230-245: the entry to store. *)
Definition school_mcp_config (script_path : option string)
    (python_path : string) (env_vars : dict string) : json :=
  let base : dict json :=
    match script_path with
    | Some p =>
        if PyStr.truthy p then [("command", JStr p)]
        else [("command", JStr python_path); ("args", module_args)]
    | None => [("command", JStr python_path); ("args", module_args)]
    end in
  JDict (if nonempty env_vars then dict_set "env" (env_json env_vars) base
         else base).

Definition required_vars : list string :=
  ["CANVAS_ACCESS_TOKEN"; "CANVAS_DOMAIN";
   "GRADESCOPE_EMAIL"; "GRADESCOPE_PASSWORD"].

Definition env_skeleton : string :=
  "# Canvas API credentials" ++ nl ++
  "CANVAS_ACCESS_TOKEN=your_canvas_token_here" ++ nl ++
  "CANVAS_DOMAIN=canvas.your_institution.edu" ++ nl ++
  nl ++
  "# Gradescope credentials" ++ nl ++
  "GRADESCOPE_EMAIL=your_email@your_institution.edu" ++ nl ++
  "GRADESCOPE_PASSWORD=your_gradescope_password" ++ nl.

(** [answer in ('y', 'yes')] *)
Definition is_yes (answer : string) : bool :=
  String.eqb answer "y" || String.eqb answer "yes".

(** [input(prompt).strip().lower()] *)
Definition ask (prompt : string) : M string :=
  answer <- input prompt ;;
  ret (PyStr.lower (PyStr.strip answer)).

(** Lines 183-228: the credentials.  [None] is [return False];
    [Some env_vars] goes on to build the entry. *)
Definition resolve_credentials (w : World) : M (option (dict string)) :=
  let env_path := os_path_join w (os_getcwd w) ".env" in
  let template_path := os_path_join w (os_getcwd w) ".env.template" in
  let load : M (option (dict string)) :=
    if os_path_exists w env_path then
      env_vars <- lift (load_env_file w env_path) ;;
      print (nl ++ "Loaded environment variables from " ++ env_path) ;;
      let missing_vars :=
        filter (fun var => negb (dict_in var env_vars)) required_vars in
      if nonempty missing_vars then
        print ("Warning: Missing required environment variables: "
               ++ PyStr.join ", " missing_vars) ;;
        print ("Please edit " ++ env_path ++ " to include these variables.") ;;
        continue_anyway <- ask "Continue with setup anyway? [y/N]: " ;;
        if negb (is_yes continue_anyway) then ret None
        else ret (Some env_vars)
      else ret (Some env_vars)
    else
      print (nl ++ "No .env file found.") ;;
      create_env <- ask "Create .env file now? [Y/n]: " ;;
      if negb (PyStr.truthy create_env) || is_yes create_env then
        attempt (EWriteText env_path env_skeleton)
                (write_text w env_path env_skeleton) ;;
        print ("Created .env file. Please edit " ++ env_path
               ++ " with your credentials.") ;;
        print "After editing, run this script again." ;;
        ret None
      else ret (Some [])
  in
  if negb (os_path_exists w env_path) && os_path_exists w template_path then
    use_template <-
      ask (nl ++ ".env file not found. Create from template? [Y/n]: ") ;;
    if negb (PyStr.truthy use_template) || is_yes use_template then
      attempt (ECopyFile template_path env_path)
              (shutil_copy w template_path env_path) ;;
      print ("Created .env file from template. Please edit " ++ env_path
             ++ " with your credentials.") ;;
      print "After editing, run this script again." ;;
      ret None
    else load
  else load.

(** Lines 250-262: write the updated config back. *)
Definition write_config_back (w : World) (config_file : string) (config : json)
  : M bool :=
  try_except
    (attempt (EWriteConfig config_file config) (json_dump w config_file config) ;;
     print (nl ++ "Successfully updated Claude Desktop configuration!") ;;
     print "School-MCP has been configured as 'school-tools' in Claude Desktop." ;;
     print "Please restart Claude Desktop for the changes to take effect." ;;
     ret true)
    (fun e =>
       emit (EPrintExn "Error updating configuration file: " e) ;;
       print_manual_instructions w ;;
       ret false).

Definition setup_claude_config (w : World) : M bool :=
  match find_claude_config w with
  | None =>
      print "Could not find Claude Desktop configuration file." ;;
      print "Please manually add the configuration to your Claude Desktop config." ;;
      print_manual_instructions w ;;
      ret false
  | Some config_file =>
      print ("Found Claude Desktop configuration at: " ++ config_file) ;;
      config <- lift (read_existing_config w config_file) ;;
      config <- lift (ensure_mcpServers config) ;;
      script_path <- lift (get_script_path w) ;;
      let package_path := get_package_path w in
      python_path <- lift (find_python_executable w) ;;
      if negb (truthy_opt package_path) then
        print "Error: Could not find the school_mcp package." ;;
        print "Please make sure you have installed the package with 'pip install -e .'" ;;
        ret false
      else
        print ("Found Python executable: " ++ python_path) ;;
        (if truthy_opt script_path then
           print ("Found school-mcp script: "
                  ++ match script_path with
                     | Some p => p
                     | None => EmptyString
                     end)
         else
           print ("Using Python module approach with package at: "
                  ++ match package_path with
                     | Some p => p
                     | None => EmptyString
                     end)) ;;
        credentials <- resolve_credentials w ;;
        match credentials with
        | None => ret false
        | Some env_vars =>
            config <- lift (add_to_config config
                              (school_mcp_config script_path python_path env_vars)) ;;
            write_config_back w config_file config
        end
  end.

(** How the process ends. *)
Inductive termination : Type :=
  | Exit (code : Z)          (* sys.exit(code) *)
  | Uncaught (e : exn).      (* a traceback *)

(** The status the operating system sees: the interpreter exits with 1
    on an uncaught exception. *)
Definition exit_status (t : termination) : Z :=
  match t with
  | Exit code => code
  | Uncaught _ => 1%Z
  end.

Definition initial_state (w : World) : state :=
  {| pending := sys_stdin w; trace := [] |}.

Definition main (w : World) : termination * state :=
  match (print "School-MCP Setup Helper" ;;
         print "======================" ;;
         print "This utility will help you configure Claude Desktop to use School-MCP." ;;
         setup_claude_config w) (initial_state w) with
  | (Ok success, st) => (Exit (if success then 0%Z else 1%Z), st)
  | (Raise e, st) => (Uncaught e, st)
  end.

(* ================================================================= *)
(** ** Observing a configuration document *)

(** A host configuration as the data model has it: a JSON object whose
    'mcpServers', when present, is an object. *)
Definition host_config (doc : json) : bool :=
  match doc with
  | JDict d =>
      match dict_get "mcpServers" d with
      | None | Some (JDict _) => true
      | Some _ => false
      end
  | _ => false
  end.

(** The value under a top-level key. *)
Definition top_level (doc : json) (key : string) : option json :=
  match doc with
  | JDict d => dict_get key d
  | _ => None
  end.

(** The entry of a named server inside 'mcpServers'. *)
Definition server_entry (doc : json) (name : string) : option json :=
  match top_level doc "mcpServers" with
  | Some (JDict servers) => dict_get name servers
  | _ => None
  end.

(** The names of the servers inside 'mcpServers', in order. *)
Definition server_names (doc : json) : list string :=
  match top_level doc "mcpServers" with
  | Some (JDict servers) => dict_keys servers
  | _ => []
  end.

(** The same world with another answer from [json.load]. *)
Definition with_json_load (w : World) (r : result json) : World :=
  {| sys_platform := sys_platform w;
     sys_executable := sys_executable w;
     sys_stdin := sys_stdin w;
     path_home := path_home w;
     environ_get := environ_get w;
     path_div := path_div w;
     os_path_join := os_path_join w;
     os_path_dirname := os_path_dirname w;
     os_path_exists := os_path_exists w;
     os_getcwd := os_getcwd w;
     os_walk := os_walk w;
     site_getsitepackages := site_getsitepackages w;
     import_school_mcp := import_school_mcp w;
     shutil_which := shutil_which w;
     subprocess_probe := subprocess_probe w;
     json_load := fun _ => r;
     read_text := read_text w;
     json_dump := json_dump w;
     write_text := write_text w;
     shutil_copy := shutil_copy w |}.

(** The document with the one entry and nothing else. *)
Definition only_school_tools (entry : json) : json :=
  JDict [("mcpServers", JDict [("school-tools", entry)])].

(* ================================================================= *)
(** ** Describing the credentials file *)

(** [c in s] for one character. *)
Fixpoint has_char (c : ascii) (s : string) : bool :=
  match s with
  | EmptyString => false
  | String c' r => Ascii.eqb c' c || has_char c r
  end.

(** A line the parser skips: blank, or a comment, once stripped. *)
Definition skipped (line : string) : bool :=
  let line := PyStr.strip line in
  negb (PyStr.truthy line) || PyStr.startswith "#" line.

(** A line that is neither blank nor a comment and has no '='. *)
Definition malformed (line : string) : bool :=
  negb (skipped line) && negb (has_char "=" line).

(** The lines of a text as [for line in f] yields them. *)
Definition file_lines (text : string) : list string :=
  PyStr.iter_lines (PyStr.universal_newlines text).

(** The text "A=1\nB=2\n# comment\n\n". *)
Definition example_env_text : string :=
  "A=1" ++ nl ++ "B=2" ++ nl ++ "# comment" ++ nl ++ nl.

(* ================================================================= *)
(** ** Describing the resolved runtime and launcher *)

(** A probe succeeds when it ran and "Found" is in its output. *)
Definition probe_succeeds (w : World) (python_path : string) : bool :=
  match subprocess_probe w python_path with
  | Ok stdout => PyStr.contains "Found" stdout
  | Raise _ => false
  end.

(** The alternates that the search path resolves, in the fixed order. *)
Definition resolved_alternates (w : World) (cmds : list string) : list string :=
  flat_map (fun python_cmd =>
              match shutil_which w python_cmd with
              | Some python_path =>
                  if PyStr.truthy python_path then [python_path] else []
              | None => []
              end) cmds.

(** The candidates in probing order: the current runtime first. *)
Definition candidates (w : World) : list string :=
  sys_executable w :: resolved_alternates w common_pythons.

(** The runtime as the specification words it: the first candidate whose
    probe succeeds, the current runtime when none does. *)
Definition resolved_runtime (w : World) : string :=
  match find (probe_succeeds w) (candidates w) with
  | Some python_path => python_path
  | None => sys_executable w
  end.

(** The launcher as the specification words it: the search-path lookup
    of the platform's executable name first, then that name in the
    'Scripts' (Windows) or 'bin' directory beside the resolved runtime. *)
Definition resolved_script (w : World) : option string :=
  let name := match sys_platform w with
              | Win32 => "school-mcp.exe"
              | _ => "school-mcp"
              end in
  let beside := match sys_platform w with
                | Win32 => "Scripts"
                | _ => "bin"
                end in
  let on_path := shutil_which w name in
  if truthy_opt on_path then on_path
  else
    let candidate :=
      os_path_join w
        (os_path_join w (os_path_dirname w (resolved_runtime w)) beside) name in
    if os_path_exists w candidate then Some candidate else None.

(* ================================================================= *)
(** ** Describing a run *)

(** The configuration writes among some events, in order. *)
Definition config_writes (evs : list event) : list (string * json) :=
  flat_map (fun ev => match ev with
                      | EWriteConfig f doc => [(f, doc)]
                      | _ => []
                      end) evs.

(** [triple m Q]: from any state, [m] extends the trace by some events
    [evs] and ends with a result [r] such that [Q r evs]. *)
Definition triple {A} (m : M A) (Q : result A -> list event -> Prop) : Prop :=
  forall st, exists evs,
    trace (snd (m st)) = trace st ++ evs /\ Q (fst (m st)) evs.

(** The credentials file: '.env' in the working directory. *)
Definition env_path (w : World) : string :=
  os_path_join w (os_getcwd w) ".env".

(** The credentials a run goes on with: what [load_env_file] returned
    when the file exists, the empty mapping when it does not. *)
Definition credentials_of (w : World) (env_vars : dict string) : Prop :=
  if os_path_exists w (env_path w)
  then load_env_file w (env_path w) = Ok env_vars
  else env_vars = [].

(** How a write of [doc] to [f] ends: [True] is returned when the dump
    succeeds; when it raises, [False] is returned after the manual
    instructions have been printed. *)
Definition write_outcome (w : World) (f : string) (doc : json)
    (r : result bool) (evs : list event) : Prop :=
  match json_dump w f doc with
  | None => r = Ok true
  | Some _ => r = Ok false /\ In (EPrint manual_heading) evs
  end.

(** What one run of [setup_claude_config] comes to. *)
Inductive run_summary (w : World) (r : result bool) (evs : list event) : Prop :=
  | NoWrite :
      config_writes evs = [] ->
      r <> Ok true ->
      run_summary w r evs
  | Wrote (f : string) (config doc : json) (env_vars : dict string) :
      find_claude_config w = Some f ->
      read_existing_config w f = Ok config ->
      truthy_opt (get_package_path w) = true ->
      credentials_of w env_vars ->
      merge config
        (school_mcp_config (resolved_script w) (resolved_runtime w) env_vars)
      = Ok doc ->
      config_writes evs = [(f, doc)] ->
      write_outcome w f doc r evs ->
      run_summary w r evs.

(** How [main] turns the result of [setup_claude_config] into the end
    of the process. *)
Definition termination_of (r : result bool) : termination :=
  match r with
  | Ok success => Exit (if success then 0%Z else 1%Z)
  | Raise e => Uncaught e
  end.

(* ================================================================= *)
(** ** Sample worlds

    A Linux machine: the configuration lives under the home directory,
    the package is importable from a source checkout, and no launcher is
    on the search path. *)
Module Sample.

Definition config_file : string :=
  "/home/student/.config/Claude/claude_desktop_config.json".

Definition dot_env : string := "/home/student/school-mcp/.env".

Definition world (load : result json) (env_text : option string)
    (package : option string) (dump : option exn) (stdin : list string)
  : World :=
  {| sys_platform := OtherPlatform;
     sys_executable := "/usr/bin/python3";
     sys_stdin := stdin;
     path_home := "/home/student";
     environ_get := fun _ => None;
     path_div := fun a b => (a ++ "/" ++ b)%string;
     os_path_join := fun a b => (a ++ "/" ++ b)%string;
     os_path_dirname := fun p =>
       if String.eqb p "/usr/bin/python3" then "/usr/bin" else "/";
     os_path_exists := fun p =>
       String.eqb p config_file
       || match env_text with
          | Some _ => String.eqb p dot_env
          | None => false
          end;
     os_getcwd := "/home/student/school-mcp";
     os_walk := fun _ => [("/home/student/school-mcp", [".git"; "docs"])];
     site_getsitepackages := ["/usr/lib/python3/dist-packages"];
     import_school_mcp := package;
     shutil_which := fun _ => None;
     subprocess_probe := fun p =>
       match package with
       | Some _ => Ok ("Found" ++ nl)%string
       | None => Ok EmptyString
       end;
     json_load := fun _ => load;
     read_text := fun _ =>
       match env_text with
       | Some text => Ok text
       | None => Raise FileNotFoundError
       end;
     json_dump := fun _ _ => dump;
     write_text := fun _ _ => None;
     shutil_copy := fun _ _ => None |}.

Definition package_dir : string := "/home/student/school-mcp/src/school_mcp".

(** An existing configuration with a setting and another server. *)
Definition existing : json :=
  JDict [("theme", JStr "dark");
         ("mcpServers",
          JDict [("files", JDict [("command", JStr "/usr/bin/files-mcp")]);
                 ("school-tools", JDict [("command", JStr "old")])])].

Definition full_env : string :=
  "CANVAS_ACCESS_TOKEN=abc" ++ nl ++
  "CANVAS_DOMAIN = canvas.example.edu " ++ nl ++
  "GRADESCOPE_EMAIL=me@example.edu" ++ nl ++
  "GRADESCOPE_PASSWORD=secret" ++ nl.

(** Everything in place. *)
Definition ready : World :=
  world (Ok existing) (Some full_env) (Some package_dir) None [].

(** The package cannot be found by any strategy. *)
Definition no_package : World :=
  world (Ok existing) (Some full_env) None None [].

(** The configuration file holds a JSON array. *)
Definition array_config : World :=
  world (Ok (JList [])) (Some full_env) (Some package_dir) None [].

(** The configuration file cannot be read: no permission. *)
Definition unreadable : World :=
  world (Raise OSError) (Some full_env) (Some package_dir) None [].

(** The configuration file cannot be written. *)
Definition read_only : World :=
  world (Ok existing) (Some full_env) (Some package_dir) (Some OSError) [].

(** The credentials file holds only a comment; the operator goes on. *)
Definition empty_env : World :=
  world (Ok existing) (Some "# nothing yet") (Some package_dir) None ["y"].

(** The credentials file has a line without '='. *)
Definition bad_env : World :=
  world (Ok existing) (Some ("A=1" ++ nl ++ "oops" ++ nl)%string)
        (Some package_dir)
        None ["y"].

(** The credentials file of the specification's example. *)
Definition example_env : World :=
  world (Ok existing) (Some example_env_text) (Some package_dir) None ["y"].

End Sample.

(** What [main] prints before it calls [setup_claude_config]. *)
Definition banner : list event :=
  [EPrint "School-MCP Setup Helper";
   EPrint "======================";
   EPrint "This utility will help you configure Claude Desktop to use School-MCP."].

(** The message of line 173. *)
Definition package_error : string :=
  "Error: Could not find the school_mcp package.".

(** The documents the run of [main] wrote, or tried to write, to the
    configuration file. *)
Definition written (w : World) : list (string * json) :=
  config_writes (trace (snd (main w))).

(** The manual instructions were printed during the run. *)
Definition instructed (w : World) : Prop :=
  In (EPrint manual_heading) (trace (snd (main w))).

(** Every strategy of [get_package_path] fails: the import raises
    ImportError, no site-packages directory holds the package, the
    'src' directory under the working directory does not, and no step of
    the walk lists it. *)
Definition all_strategies_fail (w : World) : bool :=
  match import_school_mcp w with Some _ => false | None => true end
  && forallb (fun site_dir =>
                negb (os_path_exists w (os_path_join w site_dir package_name)))
             (site_getsitepackages w)
  && negb (os_path_exists w
             (os_path_join w (os_path_join w (os_getcwd w) "src") package_name))
  && forallb (fun step => negb (existsb (String.eqb package_name) (snd step)))
             (os_walk w (os_getcwd w)).

(** An entry to merge. *)
Definition sample_entry : json :=
  school_mcp_config None "/usr/bin/python3"
    [("CANVAS_DOMAIN", "canvas.example.edu")].

(** The sample configuration with the entry merged: 'theme' and the
    'files' server as they were, 'school-tools' replaced. *)
Definition merged_sample : json :=
  JDict [("theme", JStr "dark");
         ("mcpServers",
          JDict [("files", JDict [("command", JStr "/usr/bin/files-mcp")]);
                 ("school-tools", sample_entry)])].

(** The document the sample run writes when the write is refused. *)
Definition read_only_doc : json :=
  Eval vm_compute in snd (hd (EmptyString, JNull) (written Sample.read_only)).

(** The document the sample run writes when all is in place. *)
Definition ready_doc : json :=
  Eval vm_compute in snd (hd (EmptyString, JNull) (written Sample.ready)).

(** The document the sample run writes when the credentials file holds
    only a comment. *)
Definition empty_env_doc : json :=
  Eval vm_compute in snd (hd (EmptyString, JNull) (written Sample.empty_env)).

(* ================================================================= *)
(** ** Describing the rest of a run *)

(** The state with some more events. *)
Definition log (st : state) (evs : list event) : state :=
  {| pending := pending st; trace := trace st ++ evs |}.

(** The prompts among some events, in order. *)
Definition prompts (evs : list event) : list string :=
  flat_map (fun ev => match ev with
                      | EPrompt text => [text]
                      | _ => []
                      end) evs.

(** The files touched among some events: copies, text files written and
    configurations written, in order. *)
Definition file_effects (evs : list event) : list event :=
  filter (fun ev => match ev with
                    | ECopyFile _ _ | EWriteText _ _ | EWriteConfig _ _ => true
                    | _ => false
                    end) evs.

(** What [print_manual_instructions] prints. *)
Definition manual_events (w : World) : list event :=
  [EPrint manual_heading;
   EPrint "1. Open Claude Desktop";
   EPrint "2. Go to Settings > Developer > Edit Config";
   EPrint "3. Add the following to your claude_desktop_config.json:";
   EPrintJson (config_example (resolved_script w) (resolved_runtime w));
   EPrint (nl ++ "4. Replace the environment variable values with your actual credentials.");
   EPrint "5. Save the file and restart Claude Desktop"].

(** Line 204: the required variables the credentials lack. *)
Definition missing_vars (env_vars : dict string) : list string :=
  filter (fun var => negb (dict_in var env_vars)) required_vars.

(** The template of the credentials file: '.env.template' in the working
    directory. *)
Definition template_path (w : World) : string :=
  os_path_join w (os_getcwd w) ".env.template".

(** Lines 153 and 177-181: what a run prints between finding the
    configuration and turning to the credentials. *)
Definition resolution_events (w : World) (config_file : string) : list event :=
  [EPrint ("Found Claude Desktop configuration at: " ++ config_file);
   EPrint ("Found Python executable: " ++ resolved_runtime w);
   if truthy_opt (resolved_script w) then
     EPrint ("Found school-mcp script: "
             ++ match resolved_script w with
                | Some p => p
                | None => EmptyString
                end)
   else
     EPrint ("Using Python module approach with package at: "
             ++ match get_package_path w with
                | Some p => p
                | None => EmptyString
                end)].

(** Lines 247-262 with the entry of lines 230-245: store the entry and
    write the configuration back. *)
Definition store_and_write (w : World) (config_file : string) (config : json)
    (env_vars : dict string) : M bool :=
  config <- lift (add_to_config config
                    (school_mcp_config (resolved_script w) (resolved_runtime w)
                                       env_vars)) ;;
  write_config_back w config_file config.

(** What the operator was asked during the run of [main]. *)
Definition asked (w : World) : list string :=
  prompts (trace (snd (main w))).

(** The input lines the run of [main] left unread. *)
Definition unread (w : World) : list string :=
  pending (snd (main w)).

(** The files the run of [main] touched. *)
Definition effects (w : World) : list event :=
  file_effects (trace (snd (main w))).

(** The lines printed among some events, in order. *)
Definition prints (evs : list event) : list string :=
  flat_map (fun ev => match ev with
                      | EPrint text => [text]
                      | _ => []
                      end) evs.

(** What was printed, in order, during the run of [main]. *)
Definition printed (w : World) : list string :=
  prints (trace (snd (main w))).

(** Lines 255-257: what a successful write prints. *)
Definition success_events : list event :=
  [EPrint (nl ++ "Successfully updated Claude Desktop configuration!");
   EPrint "School-MCP has been configured as 'school-tools' in Claude Desktop.";
   EPrint "Please restart Claude Desktop for the changes to take effect."].

(** Lines 318-319: the end of the process for a result of
    [setup_claude_config] and the state it left. *)
Definition finish (run : result bool * state) : termination * state :=
  match run with
  | (Ok success, st) => (Exit (if success then 0%Z else 1%Z), st)
  | (Raise e, st) => (Uncaught e, st)
  end.

(** The prompts of lines 189, 210 and 215. *)
Definition template_prompt : string :=
  nl ++ ".env file not found. Create from template? [Y/n]: ".

Definition continue_prompt : string := "Continue with setup anyway? [y/N]: ".

Definition create_prompt : string := "Create .env file now? [Y/n]: ".

(** An answer as the prompts read it: stripped and in lower case. *)
Definition normalized (answer : string) : string :=
  PyStr.lower (PyStr.strip answer).

(** An answer the prompts of lines 189 and 215 take for yes: nothing,
    'y' or 'yes'. *)
Definition yes_by_default (answer : string) : bool :=
  negb (PyStr.truthy (normalized answer)) || is_yes (normalized answer).

(** Line 200: what is printed once the credentials file is loaded. *)
Definition loaded_events (w : World) : list event :=
  [EPrint (nl ++ "Loaded environment variables from " ++ env_path w)].

(** Lines 207-210: the warning about missing variables and the question
    that follows it. *)
Definition warning_events (w : World) (env_vars : dict string) : list event :=
  [EPrint ("Warning: Missing required environment variables: "
           ++ PyStr.join ", " (missing_vars env_vars));
   EPrint ("Please edit " ++ env_path w ++ " to include these variables.");
   EPrompt continue_prompt].

(** Lines 226-227 and 192-193: what is printed after the credentials
    file was created, from the skeleton or from the template. *)
Definition created_events (w : World) : list event :=
  [EPrint ("Created .env file. Please edit " ++ env_path w
           ++ " with your credentials.");
   EPrint "After editing, run this script again."].

Definition template_created_events (w : World) : list event :=
  [EPrint ("Created .env file from template. Please edit " ++ env_path w
           ++ " with your credentials.");
   EPrint "After editing, run this script again."].

(** Lines 148-149: what is printed when no configuration file is found. *)
Definition not_found_events : list event :=
  [EPrint "Could not find Claude Desktop configuration file.";
   EPrint "Please manually add the configuration to your Claude Desktop config."].

(** A parsed mapping is clean when no key or value has surrounding
    whitespace and no key holds an '='. *)
Definition clean_item (kv : string * string) : Prop :=
  PyStr.strip (fst kv) = fst kv
  /\ has_char "=" (fst kv) = false
  /\ PyStr.strip (snd kv) = snd kv.

Definition clean_env (env_vars : dict string) : Prop :=
  Forall clean_item env_vars.

(* ================================================================= *)
(** ** More sample worlds

    The same machine with a choice of platform, of APPDATA, of the files
    that exist, of the text of the credentials file, of the input and of
    a launcher on the search path. *)
Module Scene.

Definition template : string := "/home/student/school-mcp/.env.template".

Definition launcher : string := "/usr/local/bin/school-mcp".

Definition world (platform_ : platform) (appdata : option string)
    (files : list string) (env_text : string) (stdin : list string)
    (on_path : option string) : World :=
  {| sys_platform := platform_;
     sys_executable := "/usr/bin/python3";
     sys_stdin := stdin;
     path_home := "/home/student";
     environ_get := fun name =>
       if String.eqb name "APPDATA" then appdata else None;
     path_div := fun a b => (a ++ "/" ++ b)%string;
     os_path_join := fun a b => (a ++ "/" ++ b)%string;
     os_path_dirname := fun p =>
       if String.eqb p "/usr/bin/python3" then "/usr/bin" else "/";
     os_path_exists := fun p => existsb (String.eqb p) files;
     os_getcwd := "/home/student/school-mcp";
     os_walk := fun _ => [("/home/student/school-mcp", [".git"; "src"]);
                          ("/home/student/school-mcp/src", ["school_mcp"])];
     site_getsitepackages := ["/usr/lib/python3/dist-packages"];
     import_school_mcp := Some Sample.package_dir;
     shutil_which := fun name =>
       if String.eqb name "school-mcp" then on_path else None;
     subprocess_probe := fun _ => Ok ("Found" ++ nl)%string;
     json_load := fun _ => Ok Sample.existing;
     read_text := fun _ => Ok env_text;
     json_dump := fun _ _ => None;
     write_text := fun _ _ => None;
     shutil_copy := fun _ _ => None |}.

(** Windows without APPDATA. *)
Definition windows : World :=
  world Win32 (Some EmptyString) [Sample.config_file] EmptyString [] None.

(** No configuration file. *)
Definition no_config : World :=
  world OtherPlatform None [Sample.dot_env] Sample.full_env ["y"] None.


(** One variable only, and no input left. *)
Definition incomplete_eof : World :=
  world OtherPlatform None [Sample.config_file; Sample.dot_env]
        "CANVAS_DOMAIN=canvas.example.edu" [] None.


(** A template and no credentials; the operator just presses return. *)
Definition with_template : World :=
  world OtherPlatform None [Sample.config_file; template] EmptyString
        [EmptyString] None.

(** A launcher on the search path. *)
Definition with_launcher : World :=
  world OtherPlatform None [Sample.config_file; Sample.dot_env]
        Sample.full_env [] (Some launcher).

(** The credentials file is the untouched skeleton. *)
Definition with_skeleton : World :=
  world OtherPlatform None [Sample.config_file; Sample.dot_env]
        env_skeleton [] None.

(** What [Sample.full_env] parses to. *)
Definition full_env_vars : dict string :=
  [("CANVAS_ACCESS_TOKEN", "abc");
   ("CANVAS_DOMAIN", "canvas.example.edu");
   ("GRADESCOPE_EMAIL", "me@example.edu");
   ("GRADESCOPE_PASSWORD", "secret")].

(** What the credentials file of [incomplete] parses to. *)
Definition one_var : dict string :=
  [("CANVAS_DOMAIN", "canvas.example.edu")].

End Scene.

(** The document the run writes when a launcher is on the search path. *)
Definition launcher_doc : json :=
  Eval vm_compute in
    snd (hd (EmptyString, JNull)
            (config_writes (trace (snd (main Scene.with_launcher))))).




(** The sample machine with a configuration whose 'mcpServers' is a
    list. *)
Definition servers_list_config : World :=
  with_json_load Sample.ready
    (Ok (JDict [("theme", JStr "dark"); ("mcpServers", JList [])])).

(* ################################################################# *)
(** * Theorems *)

(* ================================================================= *)
(** ** Dictionaries *)

Section DictFacts.
Context {V : Type}.
Implicit Types (d : dict V) (k : string) (v : V).

Lemma dict_get_set_same k v d : dict_get k (dict_set k v d) = Some v.
Proof.
  induction d as [|[k' v'] r IH]; simpl.
  - now rewrite String.eqb_refl.
  - destruct (String.eqb k' k) eqn:E; simpl; rewrite E; auto.
Qed.

Lemma dict_get_set_other k k' v d :
  k <> k' -> dict_get k' (dict_set k v d) = dict_get k' d.
Proof.
  intros Hne. induction d as [|[k0 v0] r IH]; simpl.
  - destruct (String.eqb_spec k k'); congruence.
  - destruct (String.eqb_spec k0 k) as [->|Hk]; simpl.
    + destruct (String.eqb_spec k k'); congruence.
    + now rewrite IH.
Qed.

Lemma dict_set_set k v1 v2 d :
  dict_set k v2 (dict_set k v1 d) = dict_set k v2 d.
Proof.
  induction d as [|[k0 v0] r IH]; simpl.
  - now rewrite String.eqb_refl.
  - destruct (String.eqb k0 k) eqn:E; simpl; rewrite E; congruence.
Qed.

Lemma dict_in_set k v d : dict_in k (dict_set k v d) = true.
Proof. unfold dict_in. now rewrite dict_get_set_same. Qed.

(** Assigning to a key that is present keeps the order of the keys. *)
Lemma dict_keys_set_present k v d :
  dict_in k d = true -> dict_keys (dict_set k v d) = dict_keys d.
Proof.
  unfold dict_in, dict_keys.
  induction d as [|[k0 v0] r IH]; simpl; [discriminate|].
  destruct (String.eqb k0 k); simpl; intros H; [reflexivity|].
  now rewrite IH.
Qed.

(** Assigning to a new key appends it. *)
Lemma dict_keys_set_absent k v d :
  dict_in k d = false -> dict_keys (dict_set k v d) = dict_keys d ++ [k].
Proof.
  unfold dict_in, dict_keys.
  induction d as [|[k0 v0] r IH]; simpl; [reflexivity|].
  destruct (String.eqb k0 k); simpl; intros H; [discriminate|].
  now rewrite IH.
Qed.

End DictFacts.

(* ================================================================= *)
(** ** The merge *)

(** On a dictionary [ensure_mcpServers] and [add_to_config] compute as
    follows. *)
Lemma merge_dict (d : dict json) (entry : json) :
  merge (JDict d) entry =
  match dict_get "mcpServers" d with
  | None => Ok (JDict (dict_set "mcpServers" (JDict [("school-tools", entry)]) d))
  | Some (JDict servers) =>
      Ok (JDict (dict_set "mcpServers"
                   (JDict (dict_set "school-tools" entry servers)) d))
  | Some _ => Raise TypeError
  end.
Proof.
  unfold merge, ensure_mcpServers, add_to_config, py_in, dict_in.
  destruct (dict_get "mcpServers" d) as [servers|] eqn:E; simpl.
  - rewrite E. destruct servers; reflexivity.
  - rewrite dict_get_set_same. simpl. now rewrite dict_set_set.
Qed.

(** Any other decoded value makes the merge raise [TypeError]. *)
Lemma merge_not_dict (doc entry : json) :
  (forall d, doc <> JDict d) -> merge doc entry = Raise TypeError.
Proof.
  intros H. unfold merge, ensure_mcpServers, add_to_config.
  destruct doc; simpl; try reflexivity.
  - destruct (PyStr.contains _ _); reflexivity.
  - destruct (existsb _ _); reflexivity.
  - now destruct (H fields).
Qed.

(** The merge returns a document exactly on host configurations. *)
Lemma merge_ok_iff (doc entry : json) :
  (exists doc', merge doc entry = Ok doc') <-> host_config doc = true.
Proof.
  destruct doc;
    try (rewrite merge_not_dict by discriminate; simpl;
         split; [intros [? ?]|]; discriminate).
  rewrite merge_dict. simpl.
  destruct (dict_get "mcpServers" fields) as [[]|];
    split; intros H; try reflexivity; try discriminate; try (now eexists);
    destruct H; discriminate.
Qed.

(** The only exception the merge can raise is [TypeError]. *)
Lemma merge_raises (doc entry : json) (e : exn) :
  merge doc entry = Raise e -> e = TypeError.
Proof.
  destruct doc;
    try (rewrite merge_not_dict by discriminate; congruence).
  rewrite merge_dict.
  destruct (dict_get "mcpServers" fields) as [[]|]; congruence.
Qed.

(** What the merge leaves alone, and what it sets: each top-level key
    other than 'mcpServers' has the value it had, each server other than
    'school-tools' has the entry it had, and 'school-tools' is the new
    entry, whole. *)
Lemma merge_dict_frame (d : dict json) (entry doc' : json) :
  merge (JDict d) entry = Ok doc' ->
  (forall key, key <> "mcpServers" ->
               top_level doc' key = top_level (JDict d) key)
  /\ (forall name, name <> "school-tools" ->
                   server_entry doc' name = server_entry (JDict d) name)
  /\ server_entry doc' "school-tools" = Some entry.
Proof.
  rewrite merge_dict.
  destruct (dict_get "mcpServers" d) as [[| | | | | |servers]|] eqn:E;
    try discriminate; intros [= <-];
    unfold server_entry, top_level; rewrite E, dict_get_set_same;
    repeat split.
  - intros key Hk. apply dict_get_set_other. congruence.
  - intros name Hn. now apply dict_get_set_other.
  - apply dict_get_set_same.
  - intros key Hk. apply dict_get_set_other. congruence.
  - intros name Hn. cbn [dict_get].
    destruct (String.eqb_spec "school-tools" name); congruence.
Qed.

(** C1: on every host configuration the merge returns a document; and
    whatever the existing document, a document the merge returns has
    each top-level key other than 'mcpServers' with the value it had,
    each server other than 'school-tools' with the entry it had, and
    'school-tools' equal to the new entry, whole. *)
Theorem merge_preserves (doc entry : json) :
  (host_config doc = true -> exists doc', merge doc entry = Ok doc')
  /\ (forall doc',
        merge doc entry = Ok doc' ->
        (forall key, key <> "mcpServers" ->
                     top_level doc' key = top_level doc key)
        /\ (forall name, name <> "school-tools" ->
                         server_entry doc' name = server_entry doc name)
        /\ server_entry doc' "school-tools" = Some entry).
Proof.
  split.
  - apply merge_ok_iff.
  - intros doc' Hm.
    destruct doc as [| | | | | |d];
      try (rewrite merge_not_dict in Hm by discriminate; discriminate).
    now apply merge_dict_frame.
Qed.

(** The merge keeps the top-level keys in their order when 'mcpServers'
    is there already, and appends 'mcpServers' when it is not. *)
Lemma merge_key_order (d d' : dict json) (entry : json) :
  merge (JDict d) entry = Ok (JDict d') ->
  dict_keys d' = if dict_in "mcpServers" d then dict_keys d
                 else dict_keys d ++ ["mcpServers"].
Proof.
  rewrite merge_dict. unfold dict_in.
  destruct (dict_get "mcpServers" d) as [[| | | | | |servers]|] eqn:E;
    try discriminate; intros [= <-].
  - apply dict_keys_set_present. unfold dict_in. now rewrite E.
  - apply dict_keys_set_absent. unfold dict_in. now rewrite E.
Qed.

(** C2: merging the same entry a second time changes nothing, and a
    merge that raises raises the same way again. *)
Theorem merge_idempotent (doc entry : json) :
  (let? doc' := merge doc entry in merge doc' entry)%result = merge doc entry.
Proof.
  destruct doc;
    try (rewrite merge_not_dict by discriminate; reflexivity).
  rewrite merge_dict.
  destruct (dict_get "mcpServers" fields) as [[| | | | | |servers]|];
    try reflexivity; simpl; rewrite merge_dict, dict_get_set_same,
      !dict_set_set; reflexivity.
Qed.

(** C3: when the configuration file is empty or otherwise not valid JSON
    ([json.load] raises JSONDecodeError), has gone missing
    (FileNotFoundError) or holds the empty object, reading it and merging
    an entry gives the document whose single key is 'mcpServers' and
    whose single server is 'school-tools', equal to the entry. *)
Theorem merge_into_empty (w : World) (config_file : string) (entry : json) :
  json_load w config_file = Raise JSONDecodeError
  \/ json_load w config_file = Raise FileNotFoundError
  \/ json_load w config_file = Ok (JDict []) ->
  (let? doc := read_existing_config w config_file in merge doc entry)%result
  = Ok (only_school_tools entry)
  /\ server_names (only_school_tools entry) = ["school-tools"]
  /\ server_entry (only_school_tools entry) "school-tools" = Some entry.
Proof.
  intros H. unfold read_existing_config.
  destruct H as [-> | [-> | ->]]; repeat split.
Qed.


(* ================================================================= *)
(** ** The credentials file *)

Lemma split1_cases (sep : ascii) (s : string) :
  if has_char sep s then exists a b, PyStr.split1 sep s = [a; b]
  else PyStr.split1 sep s = [s].
Proof.
  induction s as [|c r IH]; simpl; [reflexivity|].
  destruct (Ascii.eqb c sep); simpl; [now eauto|].
  destruct (has_char sep r).
  - destruct IH as (a & b & ->). eauto.
  - now rewrite IH.
Qed.

Lemma has_char_lstrip (c : ascii) (s : string) :
  has_char c s = false -> has_char c (PyStr.lstrip s) = false.
Proof.
  induction s as [|c' r IH]; simpl; [reflexivity|].
  intros H. apply orb_false_iff in H as [H1 H2].
  destruct (PyStr.isspace c'); simpl; [auto|now rewrite H1, H2].
Qed.

Lemma has_char_rstrip (c : ascii) (s : string) :
  has_char c s = false -> has_char c (PyStr.rstrip s) = false.
Proof.
  induction s as [|c' r IH]; simpl; [reflexivity|].
  intros H. apply orb_false_iff in H as [H1 H2]. specialize (IH H2).
  destruct (PyStr.rstrip r); simpl in *.
  - destruct (PyStr.isspace c'); simpl; [reflexivity|now rewrite H1].
  - now rewrite H1, IH.
Qed.

Lemma has_char_strip (c : ascii) (s : string) :
  has_char c s = false -> has_char c (PyStr.strip s) = false.
Proof. intros H. now apply has_char_rstrip, has_char_lstrip. Qed.

Lemma load_env_lines_malformed (lines : list string) :
  forall env_vars,
    existsb malformed lines = true ->
    load_env_lines lines env_vars = Raise ValueError.
Proof.
  induction lines as [|line rest IH]; simpl; [discriminate|].
  intros env_vars H. unfold malformed, skipped in H.
  destruct (negb _ || PyStr.startswith _ _) eqn:Hskip; simpl in H; [now auto|].
  destruct (has_char "=" line) eqn:Heq; simpl in H.
  - pose proof (split1_cases "=" (PyStr.strip line)) as Hs.
    destruct (has_char "=" (PyStr.strip line)).
    + destruct Hs as (a & b & ->). simpl. now apply IH.
    + now rewrite Hs.
  - pose proof (split1_cases "=" (PyStr.strip line)) as Hs.
    rewrite (has_char_strip _ _ Heq) in Hs. now rewrite Hs.
Qed.

Lemma load_env_lines_well_formed (lines : list string) :
  forall env_vars,
    existsb malformed lines = false ->
    exists env_vars', load_env_lines lines env_vars = Ok env_vars'.
Proof.
  induction lines as [|line rest IH]; simpl; [now eauto|].
  intros env_vars H. apply orb_false_iff in H as [H1 H2].
  unfold malformed, skipped in H1.
  destruct (negb _ || PyStr.startswith _ _) eqn:Hskip; simpl in H1; [now auto|].
  apply negb_false_iff in H1.
  pose proof (split1_cases "=" (PyStr.strip line)) as Hs.
  destruct (has_char "=" (PyStr.strip line)) eqn:Hc.
  - destruct Hs as (a & b & ->). simpl. now apply IH.
  - (* the '=' of the line survives stripping: it is not whitespace *)
    exfalso. clear - H1 Hc.
    assert (Hl : forall s, has_char "=" s = true ->
                           has_char "=" (PyStr.lstrip s) = true).
    { induction s as [|c r IHs]; simpl; [discriminate|].
      destruct (Ascii.eqb_spec c "="%char) as [->|Hne]; simpl; [reflexivity|].
      intros Hr. destruct (PyStr.isspace c); simpl; [auto|].
      destruct (Ascii.eqb_spec c "="%char); [contradiction|]. exact Hr. }
    assert (Hr : forall s, has_char "=" s = true ->
                           has_char "=" (PyStr.rstrip s) = true).
    { induction s as [|c r IHs]; simpl; [discriminate|].
      destruct (Ascii.eqb_spec c "="%char) as [->|Hne]; simpl.
      - intros _. destruct (PyStr.rstrip r); reflexivity.
      - intros Hr. specialize (IHs Hr).
        destruct (PyStr.rstrip r); simpl in *; [discriminate|].
        destruct (Ascii.eqb_spec c "="%char); [contradiction|]. exact IHs. }
    unfold PyStr.strip in Hc. rewrite (Hr _ (Hl _ H1)) in Hc. discriminate.
Qed.

(** A skipped line leaves the mapping as it is. *)
Lemma load_env_lines_skip (line : string) (rest : list string)
    (env_vars : dict string) :
  skipped line = true ->
  load_env_lines (line :: rest) env_vars = load_env_lines rest env_vars.
Proof. unfold skipped. cbn [load_env_lines]. now intros ->. Qed.

(** Keys and values are stripped, and so is the line before it is split. *)
Example load_env_lines_trims :
  load_env_lines ["  CANVAS_DOMAIN =  canvas.example.edu  " ++ nl;
                  "   # note" ++ nl]%string []
  = Ok [("CANVAS_DOMAIN", "canvas.example.edu")].
Proof. reflexivity. Qed.

(** The parser raises on a readable file only in that case. *)
Lemma load_env_file_total (w : World) (path text : string) :
  read_text w path = Ok text ->
  existsb malformed (file_lines text) = false ->
  exists env_vars, load_env_file w path = Ok env_vars.
Proof.
  intros Hr Hbad. unfold load_env_file.
  destruct (os_path_exists w path); [|now eauto].
  rewrite Hr. simpl. now apply load_env_lines_well_formed.
Qed.

(* ================================================================= *)
(** ** Resolving the runtime *)

Lemma probe_caught (w : World) (python_path : string) :
  try_except_Exception (probe w python_path) (Ok None)
  = Ok (if probe_succeeds w python_path then Some python_path else None).
Proof.
  unfold probe, probe_succeeds.
  destruct (subprocess_probe w python_path) as [stdout|e]; simpl;
    [destruct (PyStr.contains "Found" stdout)|]; reflexivity.
Qed.

Lemma try_common_pythons_find (w : World) (cmds : list string) :
  try_common_pythons w cmds
  = Ok (find (probe_succeeds w) (resolved_alternates w cmds)).
Proof.
  induction cmds as [|python_cmd rest IH]; simpl; [reflexivity|].
  destruct (shutil_which w python_cmd) as [python_path|]; simpl; [|exact IH].
  destruct (PyStr.truthy python_path); simpl; [|exact IH].
  rewrite probe_caught. simpl.
  destruct (probe_succeeds w python_path); [reflexivity|exact IH].
Qed.

Lemma find_python_executable_ok (w : World) :
  find_python_executable w = Ok (resolved_runtime w).
Proof.
  unfold find_python_executable, resolved_runtime, candidates.
  rewrite probe_caught. cbn [rbind find].
  destruct (probe_succeeds w (sys_executable w)); [reflexivity|].
  rewrite try_common_pythons_find. cbn [rbind].
  now destruct (find _ _).
Qed.

(** C6: [find_python_executable] never raises; it returns the first
    candidate, the current runtime first and then the alternates the
    search path resolves, whose probe succeeds; and when no probe
    succeeds it returns the current runtime. *)
Theorem find_python_executable_spec (w : World) :
  find_python_executable w = Ok (resolved_runtime w)
  /\ (forallb (fun p => negb (probe_succeeds w p)) (candidates w) = true ->
      find_python_executable w = Ok (sys_executable w)).
Proof.
  split; [apply find_python_executable_ok|].
  intros Hnone. rewrite find_python_executable_ok. f_equal.
  unfold resolved_runtime.
  destruct (find _ _) as [p|] eqn:E; [|reflexivity].
  apply find_some in E as [Hin Hp].
  rewrite forallb_forall in Hnone. specialize (Hnone p Hin).
  rewrite Hp in Hnone. discriminate.
Qed.

(* ================================================================= *)
(** ** Resolving the launcher *)

Lemma get_script_path_ok (w : World) :
  get_script_path w = Ok (resolved_script w).
Proof.
  unfold get_script_path, resolved_script, script_name, scripts_dir_name.
  rewrite find_python_executable_ok. cbn [rbind].
  destruct (sys_platform w); cbn [append];
    destruct (truthy_opt (shutil_which w _)); try reflexivity;
    now destruct (os_path_exists w _).
Qed.

(* ================================================================= *)
(** ** Reasoning about computations *)

Lemma config_writes_app (evs1 evs2 : list event) :
  config_writes (evs1 ++ evs2) = config_writes evs1 ++ config_writes evs2.
Proof. apply flat_map_app. Qed.

Section Rules.
Context {A B : Type}.

Lemma triple_ret (a : A) Q : Q (Ok a) [] -> triple (ret a) Q.
Proof. intros H st. exists []. now rewrite app_nil_r. Qed.

Lemma triple_lift (r : result A) Q : Q r [] -> triple (lift r) Q.
Proof. intros H st. exists []. now rewrite app_nil_r. Qed.

Lemma triple_emit (e : event) Q : Q (Ok tt) [e] -> triple (emit e) Q.
Proof. intros H st. now exists [e]. Qed.

Lemma triple_attempt (e : event) (outcome : option exn) Q :
  Q (match outcome with None => Ok tt | Some x => Raise x end) [e] ->
  triple (attempt e outcome) Q.
Proof.
  intros H st. exists [e]. unfold attempt.
  destruct outcome; simpl; auto.
Qed.

Lemma triple_input (prompt : string) Q :
  Q (Raise EOFError) [EPrompt prompt] ->
  (forall line, Q (Ok line) [EPrompt prompt]) ->
  triple (input prompt) Q.
Proof.
  intros H1 H2 st. exists [EPrompt prompt]. unfold input.
  destruct (pending st); simpl; auto.
Qed.

Lemma triple_bind (m : M A) (k : A -> M B) Q :
  triple m (fun r evs1 =>
              match r with
              | Ok a => triple (k a) (fun r2 evs2 => Q r2 (evs1 ++ evs2))
              | Raise e => Q (Raise e) evs1
              end) ->
  triple (bind m k) Q.
Proof.
  intros H st. destruct (H st) as (evs1 & Ht & Hq). unfold bind.
  destruct (m st) as [[a|e] st1]; simpl in *.
  - destruct (Hq st1) as (evs2 & Ht2 & Hq2).
    exists (evs1 ++ evs2). now rewrite Ht2, Ht, app_assoc.
  - now exists evs1.
Qed.

Lemma triple_try_except (body : M A) (handler : exn -> M A) Q :
  triple body (fun r evs1 =>
                 match r with
                 | Ok a => Q (Ok a) evs1
                 | Raise e =>
                     triple (handler e) (fun r2 evs2 => Q r2 (evs1 ++ evs2))
                 end) ->
  triple (try_except body handler) Q.
Proof.
  intros H st. destruct (H st) as (evs1 & Ht & Hq). unfold try_except.
  destruct (body st) as [[a|e] st1]; simpl in *.
  - now exists evs1.
  - destruct (Hq st1) as (evs2 & Ht2 & Hq2).
    exists (evs1 ++ evs2). now rewrite Ht2, Ht, app_assoc.
Qed.

Lemma triple_conseq (m : M A) (Q Q' : result A -> list event -> Prop) :
  triple m Q -> (forall r evs, Q r evs -> Q' r evs) -> triple m Q'.
Proof.
  intros H Himp st. destruct (H st) as (evs & Ht & Hq). eauto.
Qed.

End Rules.

Lemma triple_ask (prompt : string) Q :
  Q (Raise EOFError) [EPrompt prompt] ->
  (forall answer, Q (Ok answer) [EPrompt prompt]) ->
  triple (ask prompt) Q.
Proof.
  intros H1 H2. unfold ask. apply triple_bind, triple_input.
  - exact H1.
  - intros line. apply triple_ret. rewrite app_nil_r. apply H2.
Qed.

(** One step of a computation, by the rule for its head. *)
Ltac wp_step :=
  lazymatch goal with
  | |- triple (bind _ _) _ => apply triple_bind
  | |- triple (ret _) _ => apply triple_ret
  | |- triple (print _) _ => apply triple_emit
  | |- triple (emit _) _ => apply triple_emit
  | |- triple (attempt _ _) _ => apply triple_attempt
  | |- triple (lift (get_script_path _)) _ =>
      rewrite get_script_path_ok; apply triple_lift
  | |- triple (lift (find_python_executable _)) _ =>
      rewrite find_python_executable_ok; apply triple_lift
  | |- triple (lift _) _ => apply triple_lift
  end; cbv beta iota.

Ltac wp := repeat wp_step.

(** [print_manual_instructions] returns, prints its heading and writes
    no configuration. *)
Lemma print_manual_instructions_spec (w : World) :
  triple (print_manual_instructions w)
         (fun r evs => r = Ok tt
                       /\ config_writes evs = []
                       /\ In (EPrint manual_heading) evs).
Proof.
  unfold print_manual_instructions. wp.
  repeat split. simpl. auto.
Qed.

Ltac wp_case :=
  lazymatch goal with
  | |- triple (if ?c then _ else _) _ => destruct c eqn:?
  | |- triple (match ?c with _ => _ end) _ => destruct c eqn:?
  | |- triple (ask _) _ => apply triple_ask; [|intros ?answer]
  | |- match ?r with Ok _ => _ | Raise _ => _ end => destruct r eqn:?
  end; cbv beta iota.

Ltac wp_all := repeat (wp_step || wp_case).

(** Lines 183-228 write no configuration, and hand on the credentials
    of the file. *)
Lemma resolve_credentials_spec (w : World) :
  triple (resolve_credentials w)
         (fun r evs => config_writes evs = []
                       /\ forall env_vars, r = Ok (Some env_vars) ->
                                           credentials_of w env_vars).
Proof.
  unfold resolve_credentials, credentials_of. fold (env_path w). cbv zeta.
  destruct (os_path_exists w (env_path w)) eqn:Henv; cbn [negb andb];
    wp_all;
    (split; [reflexivity|]); intros env_vars [=]; subst; auto.
Qed.

Lemma write_config_back_spec (w : World) (f : string) (doc : json) :
  triple (write_config_back w f doc)
         (fun r evs => config_writes evs = [(f, doc)]
                       /\ write_outcome w f doc r evs).
Proof.
  unfold write_config_back, write_outcome.
  apply triple_try_except. wp.
  destruct (json_dump w f doc) as [e|]; cbv beta iota.
  - wp. eapply triple_conseq; [apply print_manual_instructions_spec|].
    intros r evs (-> & Hw & Hin). cbv beta iota. wp.
    rewrite !config_writes_app, Hw. split; [reflexivity|].
    split; [reflexivity|]. rewrite !in_app_iff. auto.
  - wp. split; reflexivity.
Qed.

Lemma setup_claude_config_spec (w : World) :
  triple (setup_claude_config w) (run_summary w).
Proof.
  unfold setup_claude_config.
  destruct (find_claude_config w) as [f|] eqn:Hf.
  - wp. destruct (read_existing_config w f) as [config|e] eqn:Hread;
      [|apply NoWrite; [reflexivity|discriminate]].
    wp. destruct (ensure_mcpServers config) as [config1|e] eqn:Hens;
      [|apply NoWrite; [reflexivity|discriminate]].
    wp. cbv zeta.
    destruct (truthy_opt (get_package_path w)) eqn:Hpkg; cbn [negb].
    + wp.
      apply (triple_conseq (A:=unit)) with
        (Q := fun r evs => r = Ok tt /\ config_writes evs = []).
      { destruct (truthy_opt (resolved_script w)); wp; split; reflexivity. }
      intros r evs0 [-> Hw0]. cbv beta iota.
      apply triple_bind.
      eapply triple_conseq; [apply resolve_credentials_spec|].
      intros [[env_vars|]|e] evs1 (Hw1 & Hcred); cbv beta iota.
      * wp.
        destruct (add_to_config config1 _) as [doc|e] eqn:Hadd.
        -- eapply triple_conseq; [apply write_config_back_spec|].
           intros r evs2 (Hw2 & Hout). cbv beta.
           eapply Wrote with (config := config) (doc := doc); eauto.
           ++ unfold merge. rewrite Hens. exact Hadd.
           ++ rewrite !config_writes_app, Hw0, Hw1, Hw2. reflexivity.
           ++ unfold write_outcome in *.
              destruct (json_dump w f doc); [|exact Hout].
              destruct Hout as [-> Hin]. split; [reflexivity|].
              rewrite !in_app_iff. tauto.
        -- apply NoWrite; [|discriminate].
           rewrite !config_writes_app, Hw0, Hw1. reflexivity.
      * wp. apply NoWrite; [|discriminate].
        rewrite !config_writes_app, Hw0, Hw1. reflexivity.
      * apply NoWrite; [|discriminate].
        rewrite !config_writes_app, Hw0, Hw1. reflexivity.
    + wp. apply NoWrite; [reflexivity|discriminate].
  - wp. eapply triple_conseq; [apply print_manual_instructions_spec|].
    intros r evs (-> & Hw & Hin). cbv beta iota. wp.
    apply NoWrite; [|discriminate].
    rewrite !config_writes_app, Hw. reflexivity.
Qed.

(** [main] prints its banner and then is one run of
    [setup_claude_config]. *)
Lemma main_of_setup (w : World) (Q : result bool -> list event -> Prop) :
  triple (setup_claude_config w) Q ->
  exists r evs,
    Q r evs
    /\ fst (main w) = termination_of r
    /\ trace (snd (main w)) = banner ++ evs.
Proof.
  intros HQ.
  assert (H : triple (print "School-MCP Setup Helper" ;;
                      print "======================" ;;
                      print "This utility will help you configure Claude Desktop to use School-MCP." ;;
                      setup_claude_config w)
                     (fun r evs => exists evs', Q r evs' /\ evs = banner ++ evs')).
  { wp. eapply triple_conseq; [exact HQ|].
    intros r evs Hq. exists evs. split; [exact Hq|reflexivity]. }
  destruct (H (initial_state w)) as (evs & Ht & evs' & Hq & ->).
  unfold main.
  destruct (bind _ _ (initial_state w)) as [[success|e] st]; simpl in *;
    subst; [exists (Ok success), evs' | exists (Raise e), evs']; auto.
Qed.

Lemma main_spec (w : World) :
  exists r evs,
    run_summary w r evs
    /\ fst (main w) = termination_of r
    /\ config_writes (trace (snd (main w))) = config_writes evs
    /\ (forall ev, In ev evs -> In ev (trace (snd (main w)))).
Proof.
  destruct (main_of_setup w _ (setup_claude_config_spec w))
    as (r & evs & Hs & Ht & Htr).
  exists r, evs. rewrite Htr. repeat split; auto.
  intros ev Hin. apply in_or_app. now right.
Qed.

(** On a host configuration [ensure_mcpServers] returns. *)
Lemma ensure_host_config (config : json) :
  host_config config = true ->
  exists config', ensure_mcpServers config = Ok config'.
Proof.
  destruct config; try discriminate. intros _.
  unfold ensure_mcpServers. cbn [py_in rbind].
  destruct (dict_in "mcpServers" fields); cbn [negb py_setitem]; eauto.
Qed.

(** With the configuration read and no package found, the run prints
    the error of line 173 and returns [False]. *)
Lemma no_package_run (w : World) (f : string) (config : json) :
  find_claude_config w = Some f ->
  read_existing_config w f = Ok config ->
  host_config config = true ->
  get_package_path w = None ->
  triple (setup_claude_config w)
         (fun r evs => r = Ok false /\ In (EPrint package_error) evs).
Proof.
  intros Hf Hr Hc Hp. unfold setup_claude_config. rewrite Hf. wp.
  rewrite Hr. cbv beta iota.
  destruct (ensure_host_config _ Hc) as [config' ->]. wp.
  cbv zeta. rewrite Hp. cbn [truthy_opt negb]. wp.
  split; [reflexivity|]. rewrite !in_app_iff. simpl. tauto.
Qed.

(** An exception of [load_env_file] leaves [setup_claude_config], and
    so [main], uncaught. *)
Lemma load_error_propagates (w : World) (f : string) (config : json)
    (e : exn) :
  find_claude_config w = Some f ->
  read_existing_config w f = Ok config ->
  host_config config = true ->
  truthy_opt (get_package_path w) = true ->
  os_path_exists w (env_path w) = true ->
  load_env_file w (env_path w) = Raise e ->
  fst (main w) = Uncaught e.
Proof.
  intros Hf Hr Hc Hp Hex Hload.
  assert (H : triple (setup_claude_config w) (fun r _ => r = Raise e)).
  { unfold setup_claude_config. rewrite Hf. wp.
    rewrite Hr. cbv beta iota.
    destruct (ensure_host_config _ Hc) as [config' ->]. wp.
    cbv zeta. rewrite Hp. cbn [negb]. wp.
    apply (triple_conseq (A:=unit)) with
      (Q := fun r evs => r = Ok tt).
    { destruct (truthy_opt (resolved_script w)); wp; reflexivity. }
    intros r evs0 ->. cbv beta iota. apply triple_bind.
    unfold resolve_credentials. fold (env_path w). cbv zeta.
    rewrite Hex. cbn [negb andb]. wp. rewrite Hload. reflexivity. }
  destruct (main_of_setup w _ H) as (r & evs & -> & Ht & _). exact Ht.
Qed.

(* ================================================================= *)
(** ** A malformed credentials file *)

(** C5, as the code has it: the text "A=1\nB=2\n# comment\n\n" parses
    to exactly A -> "1", B -> "2"; and whenever some line of the file
    is, once stripped, neither blank nor a comment, and has no '=',
    [load_env_file] raises the [ValueError] of the failed unpacking,
    which ends a run that has come to read that file. *)
Theorem load_env_file_spec (w : World) (path : string) :
  os_path_exists w path = true ->
  (read_text w path = Ok example_env_text ->
   load_env_file w path = Ok [("A", "1"); ("B", "2")])
  /\ (forall text line,
        read_text w path = Ok text ->
        In line (file_lines text) ->
        malformed line = true ->
        load_env_file w path = Raise ValueError
        /\ (forall f config,
              path = env_path w ->
              find_claude_config w = Some f ->
              read_existing_config w f = Ok config ->
              host_config config = true ->
              truthy_opt (get_package_path w) = true ->
              fst (main w) = Uncaught ValueError)).
Proof.
  intros Hex. split.
  - unfold load_env_file. rewrite Hex. intros ->. reflexivity.
  - intros text line Hread Hin Hbad.
    assert (Hraise : load_env_file w path = Raise ValueError).
    { unfold load_env_file. rewrite Hex, Hread. cbn [rbind].
      apply load_env_lines_malformed, existsb_exists. eauto. }
    split; [exact Hraise|].
    intros f config -> Hf Hr Hc Hp.
    now apply (load_error_propagates w f config ValueError).
Qed.

(** C5, as stated, fails: the line "oops" has no '='; the two-way
    unpacking of its one piece raises [ValueError], no parse error is
    made of it, and the sample run ends on the uncaught exception. *)
Lemma malformed_line_crashes :
  read_text Sample.bad_env Sample.dot_env
  = Ok ("A=1" ++ nl ++ "oops" ++ nl)%string
  /\ malformed ("oops" ++ nl) = true
  /\ unpack2 (PyStr.split1 "=" (PyStr.strip ("oops" ++ nl))) = Raise ValueError
  /\ load_env_file Sample.bad_env Sample.dot_env = Raise ValueError
  /\ fst (main Sample.bad_env) = Uncaught ValueError.
Proof.
  repeat split; vm_compute; reflexivity.
Qed.

(* ================================================================= *)
(** ** What a run writes *)

Lemma merge_stores_entry (config entry doc : json) :
  merge config entry = Ok doc ->
  server_entry doc "school-tools" = Some entry.
Proof.
  destruct config as [| | | | | |d];
    try (rewrite merge_not_dict by discriminate; discriminate).
  rewrite merge_dict.
  destruct (dict_get "mcpServers" d) as [[| | | | | |servers]|];
    try discriminate; intros [= <-]; unfold server_entry, top_level;
    rewrite dict_get_set_same.
  - apply dict_get_set_same.
  - cbn [dict_get]. now rewrite String.eqb_refl.
Qed.

(** Every document the run writes is the existing configuration merged
    with the entry built from the resolved launcher, the resolved
    runtime and the credentials; and the package was found. *)
Lemma written_is_merge (w : World) (f : string) (doc : json) :
  In (f, doc) (written w) ->
  exists config env_vars,
    find_claude_config w = Some f
    /\ read_existing_config w f = Ok config
    /\ truthy_opt (get_package_path w) = true
    /\ credentials_of w env_vars
    /\ merge config
         (school_mcp_config (resolved_script w) (resolved_runtime w) env_vars)
       = Ok doc.
Proof.
  unfold written. destruct (main_spec w) as (r & evs & Hs & _ & Hw & _).
  rewrite Hw. destruct Hs as [Hnone _ | f' config doc' env_vars ? ? ? ? ? Hone _].
  - rewrite Hnone. intros [].
  - rewrite Hone. intros [[= <- <-]|[]]. eauto 10.
Qed.

(* ================================================================= *)
(** ** Locating the package *)

Lemma find_none_forallb {A} (p : A -> bool) (l : list A) :
  find p l = None <-> forallb (fun x => negb (p x)) l = true.
Proof.
  induction l as [|x l IH]; simpl; [tauto|].
  destruct (p x); simpl; [split; discriminate|exact IH].
Qed.

Lemma get_package_path_none (w : World) :
  get_package_path w = None <-> all_strategies_fail w = true.
Proof.
  unfold get_package_path, all_strategies_fail.
  destruct (import_school_mcp w); simpl; [split; discriminate|].
  destruct (find _ (site_getsitepackages w)) eqn:E1.
  - split; [discriminate|]. intros H.
    apply andb_true_iff in H as [H _]. apply andb_true_iff in H as [H _].
    apply find_none_forallb in H. congruence.
  - apply find_none_forallb in E1. rewrite E1. simpl.
    destruct (os_path_exists w _); simpl; [split; discriminate|].
    destruct (find _ (os_walk w _)) eqn:E2.
    + split; [discriminate|]. intros H.
      apply find_none_forallb in H. congruence.
    + apply find_none_forallb in E2. rewrite E2. tauto.
Qed.

(** C7: the locator returns absent only when every strategy fails; and
    when they all fail it does return absent, the process ends with exit
    status 1 and nothing is written to the configuration file.  Where
    the configuration was found and read, the run ends by [sys.exit(1)]
    after the error message of line 173. *)
Theorem package_absent_is_fatal (w : World) :
  (get_package_path w = None -> all_strategies_fail w = true)
  /\ (all_strategies_fail w = true ->
      get_package_path w = None
      /\ exit_status (fst (main w)) = 1%Z
      /\ written w = []
      /\ (forall f config,
            find_claude_config w = Some f ->
            read_existing_config w f = Ok config ->
            host_config config = true ->
            fst (main w) = Exit 1
            /\ In (EPrint package_error) (trace (snd (main w))))).
Proof.
  split; [apply get_package_path_none|].
  intros Hfail. apply get_package_path_none in Hfail.
  split; [exact Hfail|]. unfold written.
  destruct (main_spec w) as (r & evs & Hs & Ht & Hw & _).
  rewrite Ht, Hw.
  destruct Hs as [Hnone Hr | f config doc env_vars _ _ Hpkg _ _ _ _].
  - split; [|split; [exact Hnone|]].
    + destruct r as [[]|e]; [contradiction| |]; reflexivity.
    + intros f config Hf Hread Hc.
      destruct (main_of_setup w _ (no_package_run w f config Hf Hread Hc Hfail))
        as (r' & evs' & [-> Hin] & Ht' & Htr).
      rewrite <- Ht, Ht', Htr. split; [reflexivity|].
      apply in_or_app. now right.
  - rewrite Hfail in Hpkg. discriminate.
Qed.

(* ================================================================= *)
(** ** Exceptions around the write *)

(** C8, as the code has it: the run exits with 0 exactly when it wrote
    the configuration and the write succeeded; and when the write
    raises, whatever the exception, the run exits with 1 after printing
    the manual instructions. *)
Theorem write_failure_is_caught (w : World) :
  (fst (main w) = Exit 0 <->
   exists f doc, written w = [(f, doc)] /\ json_dump w f doc = None)
  /\ (forall f doc e,
        In (f, doc) (written w) ->
        json_dump w f doc = Some e ->
        fst (main w) = Exit 1 /\ instructed w).
Proof.
  unfold written, instructed.
  destruct (main_spec w) as (r & evs & Hs & Ht & Hw & Hin).
  rewrite Ht, Hw.
  destruct Hs as [Hnone Hr | f config doc env_vars _ _ _ _ _ Hone Hout].
  - rewrite Hnone. split; [split|].
    + destruct r as [[]|e]; simpl; [contradiction|discriminate..].
    + intros (f & doc & [=] & _).
    + intros f doc e [].
  - rewrite Hone. unfold write_outcome in Hout. split; [split|].
    + intros Hexit. exists f, doc. split; [reflexivity|].
      destruct (json_dump w f doc); [|reflexivity].
      destruct Hout as [-> _]. discriminate.
    + intros (f' & doc' & [= <- <-] & Hd). rewrite Hd in Hout. now subst.
    + intros f' doc' e [[= <- <-]|[]] Hd. rewrite Hd in Hout.
      destruct Hout as [-> Hm]. split; [reflexivity|]. now apply Hin.
Qed.

(** C8, as stated, fails.  With a JSON array in the configuration file
    the merge raises [TypeError] at [config['mcpServers'] = {}]; with a
    file that may not be read, [open] raises an [OSError] that the
    handler of line 159 does not name.  Nothing catches either: the
    process ends on the exception and no manual instructions are
    printed. *)
Lemma merge_exception_uncaught :
  (json_load Sample.array_config Sample.config_file = Ok (JList [])
   /\ ensure_mcpServers (JList []) = Raise TypeError
   /\ fst (main Sample.array_config) = Uncaught TypeError
   /\ ~ instructed Sample.array_config)
  /\ (json_load Sample.unreadable Sample.config_file = Raise OSError
      /\ fst (main Sample.unreadable) = Uncaught OSError
      /\ ~ instructed Sample.unreadable).
Proof.
  repeat split; try (vm_compute; reflexivity);
    unfold instructed; vm_compute; intros H;
    repeat (destruct H as [H|H]; [discriminate|]); exact H.
Qed.

(* ================================================================= *)
(** ** The entry that is stored *)

(** Without a launcher the entry is the module invocation. *)
Lemma module_form (python_path : string) (env_vars : dict string) :
  let entry := school_mcp_config None python_path env_vars in
  top_level entry "command" = Some (JStr python_path)
  /\ top_level entry "args" = Some module_args.
Proof.
  unfold school_mcp_config. destruct (nonempty env_vars); split; reflexivity.
Qed.

(** The 'env' field holds the credentials when there are some, and is
    absent when there are none. *)
Lemma env_field (script_path : option string) (python_path : string)
    (env_vars : dict string) :
  top_level (school_mcp_config script_path python_path env_vars) "env"
  = if nonempty env_vars then Some (env_json env_vars) else None.
Proof.
  unfold school_mcp_config, top_level.
  destruct (nonempty env_vars).
  - apply dict_get_set_same.
  - destruct script_path as [p|]; [destruct (PyStr.truthy p)|]; reflexivity.
Qed.

(** C9: [get_script_path] never raises and returns the launcher found
    on the search path under the platform's name ('school-mcp.exe' on
    Windows, 'school-mcp' elsewhere), else the one in 'Scripts' or 'bin'
    beside the resolved runtime, else nothing; and when it returns
    nothing, the entry built, and every entry a run writes, has the
    resolved runtime as its command and ["-m", "school_mcp"] as its
    arguments. *)
Theorem script_resolution (w : World) :
  get_script_path w = Ok (resolved_script w)
  /\ (resolved_script w = None ->
      (forall env_vars,
         let entry :=
           school_mcp_config (resolved_script w) (resolved_runtime w) env_vars in
         top_level entry "command" = Some (JStr (resolved_runtime w))
         /\ top_level entry "args" = Some (JList [JStr "-m"; JStr package_name]))
      /\ (forall f doc,
            In (f, doc) (written w) ->
            exists entry,
              server_entry doc "school-tools" = Some entry
              /\ top_level entry "command" = Some (JStr (resolved_runtime w))
              /\ top_level entry "args"
                 = Some (JList [JStr "-m"; JStr package_name]))).
Proof.
  split; [apply get_script_path_ok|].
  intros Hnone. rewrite Hnone. split.
  - intros env_vars. apply module_form.
  - intros f doc Hin.
    destruct (written_is_merge w f doc Hin)
      as (config & env_vars & _ & _ & _ & _ & Hm).
    rewrite Hnone in Hm. eexists. split.
    + eapply merge_stores_entry, Hm.
    + apply module_form.
Qed.

(** C10: the entry has an 'env' field exactly when the credentials are
    not empty, and then the field is the credentials; so does every
    entry a run writes; and when the credentials file exists and parses
    to the empty mapping, the entry written has no 'env' field. *)
Theorem env_field_iff_credentials (w : World) :
  (forall script_path python_path env_vars,
     top_level (school_mcp_config script_path python_path env_vars) "env"
     = if nonempty env_vars then Some (env_json env_vars) else None)
  /\ (forall f doc,
        In (f, doc) (written w) ->
        exists env_vars entry,
          credentials_of w env_vars
          /\ server_entry doc "school-tools" = Some entry
          /\ top_level entry "env"
             = if nonempty env_vars then Some (env_json env_vars) else None)
  /\ (os_path_exists w (env_path w) = true ->
      load_env_file w (env_path w) = Ok [] ->
      forall f doc,
        In (f, doc) (written w) ->
        exists entry,
          server_entry doc "school-tools" = Some entry
          /\ top_level entry "env" = None).
Proof.
  split; [apply env_field|]. split.
  - intros f doc Hin.
    destruct (written_is_merge w f doc Hin)
      as (config & env_vars & _ & _ & _ & Hcred & Hm).
    exists env_vars. eexists. split; [exact Hcred|]. split.
    + eapply merge_stores_entry, Hm.
    + apply env_field.
  - intros Hex Hload f doc Hin.
    destruct (written_is_merge w f doc Hin)
      as (config & env_vars & _ & _ & _ & Hcred & Hm).
    unfold credentials_of in Hcred. rewrite Hex, Hload in Hcred.
    injection Hcred as <-. eexists. split.
    + eapply merge_stores_entry, Hm.
    + apply env_field.
Qed.

(* ================================================================= *)
(** ** The theorems on the sample worlds *)

(** The document the merge makes of the sample configuration. *)
Lemma merge_preserves_sample :
  host_config Sample.existing = true
  /\ merge Sample.existing sample_entry = Ok merged_sample
  /\ (forall key, key <> "mcpServers" ->
                  top_level merged_sample key = top_level Sample.existing key)
  /\ (forall name, name <> "school-tools" ->
                   server_entry merged_sample name
                   = server_entry Sample.existing name)
  /\ server_entry merged_sample "school-tools" = Some sample_entry.
Proof.
  assert (Hm : merge Sample.existing sample_entry = Ok merged_sample)
    by reflexivity.
  split; [reflexivity|]. split; [exact Hm|].
  exact (proj2 (merge_preserves Sample.existing sample_entry) merged_sample Hm).
Defined.

(** A configuration file that is not valid JSON. *)
Lemma merge_into_empty_sample :
  let w := Sample.world (Raise JSONDecodeError) None (Some Sample.package_dir)
                        None [] in
  json_load w Sample.config_file = Raise JSONDecodeError
  /\ (let? doc := read_existing_config w Sample.config_file in
      merge doc sample_entry)%result
     = Ok (only_school_tools sample_entry).
Proof.
  split; [reflexivity|].
  apply (merge_into_empty
           (Sample.world (Raise JSONDecodeError) None (Some Sample.package_dir)
                         None [])
           Sample.config_file sample_entry).
  left. reflexivity.
Defined.

(** The example of the specification, and a file with the line "oops". *)
Lemma load_env_file_sample :
  load_env_file Sample.example_env Sample.dot_env = Ok [("A", "1"); ("B", "2")]
  /\ load_env_file Sample.bad_env Sample.dot_env = Raise ValueError
  /\ fst (main Sample.bad_env) = Uncaught ValueError.
Proof.
  assert (Hin : In ("oops" ++ nl)%string
                   (file_lines ("A=1" ++ nl ++ "oops" ++ nl)))
    by (vm_compute; right; left; reflexivity).
  assert (Hbad : malformed ("oops" ++ nl) = true) by reflexivity.
  assert (Hf : find_claude_config Sample.bad_env = Some Sample.config_file)
    by (vm_compute; reflexivity).
  assert (Hp : truthy_opt (get_package_path Sample.bad_env) = true)
    by (vm_compute; reflexivity).
  split.
  - exact (proj1 (load_env_file_spec Sample.example_env Sample.dot_env eq_refl)
                 eq_refl).
  - destruct (proj2 (load_env_file_spec Sample.bad_env Sample.dot_env eq_refl)
                    ("A=1" ++ nl ++ "oops" ++ nl)%string ("oops" ++ nl)%string
                    eq_refl Hin Hbad) as [Hraise Hrun].
    split; [exact Hraise|].
    exact (Hrun Sample.config_file Sample.existing eq_refl Hf eq_refl
                eq_refl Hp).
Defined.

(** Where the package is not importable no probe succeeds, and the
    current runtime is returned. *)
Lemma find_python_executable_sample :
  forallb (fun p => negb (probe_succeeds Sample.no_package p))
          (candidates Sample.no_package) = true
  /\ find_python_executable Sample.no_package
     = Ok (sys_executable Sample.no_package).
Proof.
  assert (Hnone : forallb (fun p => negb (probe_succeeds Sample.no_package p))
                          (candidates Sample.no_package) = true)
    by (vm_compute; reflexivity).
  split; [exact Hnone|].
  exact (proj2 (find_python_executable_spec Sample.no_package) Hnone).
Defined.

(** The package is nowhere: the run prints the error, exits with 1 and
    writes nothing. *)
Lemma package_absent_sample :
  all_strategies_fail Sample.no_package = true
  /\ get_package_path Sample.no_package = None
  /\ exit_status (fst (main Sample.no_package)) = 1%Z
  /\ written Sample.no_package = []
  /\ fst (main Sample.no_package) = Exit 1
  /\ In (EPrint package_error) (trace (snd (main Sample.no_package))).
Proof.
  assert (Hfail : all_strategies_fail Sample.no_package = true)
    by (vm_compute; reflexivity).
  assert (Hf : find_claude_config Sample.no_package = Some Sample.config_file)
    by (vm_compute; reflexivity).
  assert (Hr : read_existing_config Sample.no_package Sample.config_file
               = Ok Sample.existing) by reflexivity.
  assert (Hc : host_config Sample.existing = true) by reflexivity.
  split; [exact Hfail|].
  destruct (proj2 (package_absent_is_fatal Sample.no_package) Hfail)
    as (Hnone & Hexit & Hw & Hrun).
  split; [exact Hnone|]. split; [exact Hexit|]. split; [exact Hw|].
  exact (Hrun Sample.config_file Sample.existing Hf Hr Hc).
Defined.

(** A write that raises [OSError]: exit 1 after the instructions. *)
Lemma write_failure_sample :
  In (Sample.config_file, read_only_doc) (written Sample.read_only)
  /\ json_dump Sample.read_only Sample.config_file read_only_doc = Some OSError
  /\ fst (main Sample.read_only) = Exit 1
  /\ instructed Sample.read_only.
Proof.
  assert (Hin : In (Sample.config_file, read_only_doc)
                   (written Sample.read_only))
    by (vm_compute; left; reflexivity).
  assert (Hdump : json_dump Sample.read_only Sample.config_file read_only_doc
                  = Some OSError) by reflexivity.
  split; [exact Hin|]. split; [exact Hdump|].
  exact (proj2 (write_failure_is_caught Sample.read_only)
               Sample.config_file read_only_doc OSError Hin Hdump).
Defined.

(** No launcher in the sample world: the run goes on and stores the
    module invocation. *)
Lemma script_resolution_sample :
  resolved_script Sample.ready = None
  /\ In (Sample.config_file, ready_doc) (written Sample.ready)
  /\ exists entry,
       server_entry ready_doc "school-tools" = Some entry
       /\ top_level entry "command" = Some (JStr (resolved_runtime Sample.ready))
       /\ top_level entry "args" = Some (JList [JStr "-m"; JStr package_name]).
Proof.
  assert (Hnone : resolved_script Sample.ready = None)
    by (vm_compute; reflexivity).
  assert (Hin : In (Sample.config_file, ready_doc) (written Sample.ready))
    by (vm_compute; left; reflexivity).
  split; [exact Hnone|]. split; [exact Hin|].
  exact (proj2 (proj2 (script_resolution Sample.ready) Hnone)
               Sample.config_file ready_doc Hin).
Defined.

(** A credentials file with only a comment: the entry written has no
    'env' field. *)
Lemma env_field_sample :
  os_path_exists Sample.empty_env (env_path Sample.empty_env) = true
  /\ load_env_file Sample.empty_env (env_path Sample.empty_env) = Ok []
  /\ In (Sample.config_file, empty_env_doc) (written Sample.empty_env)
  /\ exists entry,
       server_entry empty_env_doc "school-tools" = Some entry
       /\ top_level entry "env" = None.
Proof.
  assert (Hex : os_path_exists Sample.empty_env (env_path Sample.empty_env)
                = true) by (vm_compute; reflexivity).
  assert (Hload : load_env_file Sample.empty_env (env_path Sample.empty_env)
                  = Ok []) by (vm_compute; reflexivity).
  assert (Hin : In (Sample.config_file, empty_env_doc)
                   (written Sample.empty_env))
    by (vm_compute; left; reflexivity).
  split; [exact Hex|]. split; [exact Hload|]. split; [exact Hin|].
  exact (proj2 (proj2 (env_field_iff_credentials Sample.empty_env))
               Hex Hload Sample.config_file empty_env_doc Hin).
Defined.


(* ================================================================= *)
(** ** Running a computation step by step *)

Lemma log_log (st : state) (evs1 evs2 : list event) :
  log (log st evs1) evs2 = log st (evs1 ++ evs2).
Proof. unfold log. cbn [pending trace]. now rewrite app_assoc. Qed.

Lemma run_emit {A} (e : event) (k : M A) (st : state) :
  (emit e ;; k) st = k (log st [e]).
Proof. reflexivity. Qed.

Lemma run_print {A} (text : string) (k : M A) (st : state) :
  (print text ;; k) st = k (log st [EPrint text]).
Proof. reflexivity. Qed.

Lemma print_last (text : string) (st : state) :
  print text st = (Ok tt, log st [EPrint text]).
Proof. reflexivity. Qed.

Lemma ret_last {A} (a : A) (st : state) : ret a st = (Ok a, st).
Proof. reflexivity. Qed.

Lemma run_lift {A B} (r : result A) (a : A) (k : A -> M B) (st : state) :
  r = Ok a -> (x <- lift r ;; k x) st = k a st.
Proof. intros ->. reflexivity. Qed.

Lemma run_lift_raise {A B} (r : result A) (e : exn) (k : A -> M B)
    (st : state) :
  r = Raise e -> (x <- lift r ;; k x) st = (Raise e, st).
Proof. intros ->. reflexivity. Qed.

Lemma run_ask {A} (prompt answer : string) (rest : list string)
    (k : string -> M A) (st : state) :
  pending st = answer :: rest ->
  (x <- ask prompt ;; k x) st
  = k (normalized answer)
      {| pending := rest; trace := trace st ++ [EPrompt prompt] |}.
Proof.
  intros H. unfold ask, bind, input, ret, normalized. now rewrite H.
Qed.

Lemma run_ask_eof {A} (prompt : string) (k : string -> M A) (st : state) :
  pending st = [] ->
  (x <- ask prompt ;; k x) st
  = (Raise EOFError, log st [EPrompt prompt]).
Proof.
  intros H. unfold ask, bind, input, log. now rewrite H.
Qed.

Lemma run_attempt {A} (e : event) (outcome : option exn) (k : M A)
    (st : state) :
  (attempt e outcome ;; k) st
  = match outcome with
    | None => k (log st [e])
    | Some x => (Raise x, log st [e])
    end.
Proof. unfold bind, attempt. now destruct outcome. Qed.

(** [print_manual_instructions] on any state. *)
Lemma print_manual_instructions_run (w : World) (st : state) :
  print_manual_instructions w st = (Ok tt, log st (manual_events w)).
Proof.
  unfold print_manual_instructions.
  rewrite (run_lift _ _ _ _ (get_script_path_ok w)).
  rewrite (run_lift _ _ _ _ (find_python_executable_ok w)).
  rewrite !run_print, run_emit, run_print, print_last, !log_log.
  reflexivity.
Qed.

(** [write_config_back] on any state. *)
Lemma write_config_back_run (w : World) (f : string) (doc : json)
    (st : state) :
  write_config_back w f doc st
  = match json_dump w f doc with
    | None => (Ok true, log st (EWriteConfig f doc :: success_events))
    | Some e =>
        (Ok false,
         log st ([EWriteConfig f doc;
                  EPrintExn "Error updating configuration file: " e]
                 ++ manual_events w))
    end.
Proof.
  unfold write_config_back, try_except. rewrite run_attempt.
  destruct (json_dump w f doc) as [e|].
  - rewrite run_emit. unfold bind. rewrite print_manual_instructions_run.
    now rewrite ret_last, !log_log.
  - now rewrite !run_print, ret_last, !log_log.
Qed.

Lemma setup_resolved (w : World) (f : string) (config config1 : json)
    (st : state) :
  find_claude_config w = Some f ->
  read_existing_config w f = Ok config ->
  ensure_mcpServers config = Ok config1 ->
  truthy_opt (get_package_path w) = true ->
  setup_claude_config w st
  = (credentials <- resolve_credentials w ;;
     match credentials with
     | None => ret false
     | Some env_vars => store_and_write w f config1 env_vars
     end) (log st (resolution_events w f)).
Proof.
  intros Hf Hr He Hp. unfold setup_claude_config. rewrite Hf.
  rewrite run_print, (run_lift _ _ _ _ Hr), (run_lift _ _ _ _ He).
  rewrite (run_lift _ _ _ _ (get_script_path_ok w)). cbv zeta.
  rewrite (run_lift _ _ _ _ (find_python_executable_ok w)).
  rewrite Hp. cbn [negb]. rewrite run_print.
  unfold resolution_events.
  destruct (truthy_opt (resolved_script w));
    rewrite run_print, !log_log; reflexivity.
Qed.

(** [main] once everything is resolved: the banner, the resolution, then
    the credentials and the write. *)
Lemma main_resolved (w : World) (f : string) (config config1 : json) :
  find_claude_config w = Some f ->
  read_existing_config w f = Ok config ->
  ensure_mcpServers config = Ok config1 ->
  truthy_opt (get_package_path w) = true ->
  main w
  = finish ((credentials <- resolve_credentials w ;;
             match credentials with
             | None => ret false
             | Some env_vars => store_and_write w f config1 env_vars
             end)
              {| pending := sys_stdin w;
                 trace := banner ++ resolution_events w f |}).
Proof.
  intros Hf Hr He Hp.
  change (main w) with
    (finish ((print "School-MCP Setup Helper" ;;
              print "======================" ;;
              print "This utility will help you configure Claude Desktop to use School-MCP." ;;
              setup_claude_config w) (initial_state w))).
  rewrite !run_print, (setup_resolved w f config config1 _ Hf Hr He Hp).
  rewrite !log_log. reflexivity.
Qed.

(** Lines 198-212 when the credentials file is there. *)
Lemma credentials_loaded (w : World) (env_vars : dict string) (st : state) :
  os_path_exists w (env_path w) = true ->
  load_env_file w (env_path w) = Ok env_vars ->
  resolve_credentials w st
  = if nonempty (missing_vars env_vars) then
      match pending st with
      | [] =>
          (Raise EOFError,
           log st (loaded_events w ++ warning_events w env_vars))
      | answer :: rest =>
          (Ok (if is_yes (normalized answer) then Some env_vars else None),
           {| pending := rest;
              trace := trace st ++ loaded_events w
                                ++ warning_events w env_vars |})
      end
    else (Ok (Some env_vars), log st (loaded_events w)).
Proof.
  intros Hex Hload. unfold resolve_credentials. fold (env_path w). cbv zeta.
  rewrite Hex. cbn [negb andb].
  rewrite (run_lift _ _ _ _ Hload), run_print.
  change (filter (fun var => negb (dict_in var env_vars)) required_vars)
    with (missing_vars env_vars).
  destruct (nonempty (missing_vars env_vars)); [|reflexivity].
  rewrite !run_print, !log_log.
  destruct (pending st) as [|answer rest] eqn:Hp.
  - rewrite run_ask_eof by exact Hp. now rewrite log_log, <- app_assoc.
  - rewrite (run_ask _ answer rest) by exact Hp.
    destruct (is_yes (normalized answer)); cbn [negb]; rewrite ret_last;
      unfold log; cbn [trace pending app]; now rewrite <- app_assoc.
Qed.

(** Lines 213-228: no credentials file, and the question whether to
    create one. *)
Lemma credentials_absent (w : World) (st : state) :
  os_path_exists w (env_path w) = false ->
  (os_path_exists w (template_path w) = false
   \/ exists answer rest, pending st = answer :: rest) ->
  let st1 :=
    if os_path_exists w (template_path w) then
      {| pending := tl (pending st);
         trace := trace st ++ [EPrompt template_prompt] |}
    else st in
  let asks := [EPrint (nl ++ "No .env file found."); EPrompt create_prompt] in
  resolve_credentials w st
  = if os_path_exists w (template_path w)
       && yes_by_default (hd EmptyString (pending st))
    then
      match shutil_copy w (template_path w) (env_path w) with
      | None =>
          (Ok None,
           log st1 (ECopyFile (template_path w) (env_path w)
                    :: template_created_events w))
      | Some e =>
          (Raise e, log st1 [ECopyFile (template_path w) (env_path w)])
      end
    else
      match pending st1 with
      | [] => (Raise EOFError, log st1 asks)
      | answer :: rest =>
          let st2 := {| pending := rest; trace := trace st1 ++ asks |} in
          if yes_by_default answer then
            match write_text w (env_path w) env_skeleton with
            | None =>
                (Ok None,
                 log st2 (EWriteText (env_path w) env_skeleton
                          :: created_events w))
            | Some e =>
                (Raise e, log st2 [EWriteText (env_path w) env_skeleton])
            end
          else (Ok (Some []), st2)
      end.
Proof.
  intros Hex Htpl. unfold resolve_credentials.
  fold (env_path w) (template_path w). cbv zeta.
  rewrite Hex. cbn [negb andb].
  assert (Hload : forall st',
    ((print (nl ++ "No .env file found.") ;;
     create_env <- ask "Create .env file now? [Y/n]: " ;;
     (if negb (PyStr.truthy create_env) || is_yes create_env
      then
        attempt (EWriteText (env_path w) env_skeleton)
                (write_text w (env_path w) env_skeleton) ;;
        print ("Created .env file. Please edit " ++ env_path w
               ++ " with your credentials.") ;;
        print "After editing, run this script again." ;;
        ret None
      else ret (Some ([] : dict string)))) : M (option (dict string))) st'
    = match pending st' with
      | [] => (Raise EOFError,
               log st' [EPrint (nl ++ "No .env file found.");
                        EPrompt create_prompt])
      | answer :: rest =>
          if yes_by_default answer then
            match write_text w (env_path w) env_skeleton with
            | None =>
                (Ok None,
                 log {| pending := rest;
                        trace := trace st'
                                 ++ [EPrint (nl ++ "No .env file found.");
                                     EPrompt create_prompt] |}
                     (EWriteText (env_path w) env_skeleton :: created_events w))
            | Some e =>
                (Raise e,
                 log {| pending := rest;
                        trace := trace st'
                                 ++ [EPrint (nl ++ "No .env file found.");
                                     EPrompt create_prompt] |}
                     [EWriteText (env_path w) env_skeleton])
            end
          else (Ok (Some []),
                {| pending := rest;
                   trace := trace st'
                            ++ [EPrint (nl ++ "No .env file found.");
                                EPrompt create_prompt] |})
      end).
  { intros st'. rewrite run_print.
    destruct (pending st') as [|answer rest] eqn:Hp.
    - rewrite run_ask_eof by exact Hp. now rewrite log_log.
    - rewrite (run_ask _ answer rest) by exact Hp.
      unfold yes_by_default.
      destruct (negb _ || is_yes _).
      + rewrite run_attempt.
        destruct (write_text w (env_path w) env_skeleton).
        * unfold log. cbn [trace pending]. now rewrite <- !app_assoc.
        * rewrite !run_print, ret_last, !log_log.
          unfold log. cbn [trace pending]. now rewrite <- !app_assoc.
      + rewrite ret_last. unfold log. cbn [trace pending].
        now rewrite <- !app_assoc. }
  destruct (os_path_exists w (template_path w)) eqn:Ht; cbn [andb].
  - destruct Htpl as [Htpl | (answer & rest & Hp)]; [discriminate|].
    rewrite (run_ask _ answer rest) by exact Hp. rewrite Hp. cbn [hd tl].
    unfold yes_by_default at 1.
    destruct (negb _ || is_yes _).
    + rewrite run_attempt.
      destruct (shutil_copy w (template_path w) (env_path w));
        [reflexivity|].
      now rewrite !run_print, ret_last, !log_log.
    + apply Hload.
  - apply Hload.
Qed.

(* ================================================================= *)
(** ** Observing a run *)

Lemma prompts_app (evs1 evs2 : list event) :
  prompts (evs1 ++ evs2) = prompts evs1 ++ prompts evs2.
Proof. apply flat_map_app. Qed.

Lemma file_effects_app (evs1 evs2 : list event) :
  file_effects (evs1 ++ evs2) = file_effects evs1 ++ file_effects evs2.
Proof. apply filter_app. Qed.

Lemma prints_app (evs1 evs2 : list event) :
  prints (evs1 ++ evs2) = prints evs1 ++ prints evs2.
Proof. apply flat_map_app. Qed.

Lemma prompts_resolution (w : World) (f : string) :
  prompts (resolution_events w f) = [].
Proof.
  unfold resolution_events. now destruct (truthy_opt (resolved_script w)).
Qed.

Lemma file_effects_resolution (w : World) (f : string) :
  file_effects (resolution_events w f) = [].
Proof.
  unfold resolution_events. now destruct (truthy_opt (resolved_script w)).
Qed.

(** On a host configuration both updates of the document return, and
    together they are the merge. *)
Lemma host_config_updates (config : json) :
  host_config config = true ->
  exists config1,
    ensure_mcpServers config = Ok config1
    /\ forall entry, exists doc,
         add_to_config config1 entry = Ok doc
         /\ merge config entry = Ok doc.
Proof.
  intros Hc. destruct (ensure_host_config config Hc) as [config1 He].
  exists config1. split; [exact He|]. intros entry.
  destruct (proj2 (merge_ok_iff config entry) Hc) as [doc Hm].
  exists doc. split; [|exact Hm].
  unfold merge in Hm. now rewrite He in Hm.
Qed.

(** The end of a run that comes to write [doc]. *)
Lemma finish_write (w : World) (f : string) (doc : json) (st : state) :
  finish (write_config_back w f doc st)
  = match json_dump w f doc with
    | None => (Exit 0, log st (EWriteConfig f doc :: success_events))
    | Some e =>
        (Exit 1,
         log st ([EWriteConfig f doc;
                  EPrintExn "Error updating configuration file: " e]
                 ++ manual_events w))
    end.
Proof.
  rewrite write_config_back_run. now destruct (json_dump w f doc).
Qed.

(** Observing a run from the equation of [main]. *)
Ltac observe H :=
  unfold asked, unread, effects, written, printed; rewrite H;
  cbn [finish ret fst snd trace pending log];
  rewrite ?prompts_app, ?file_effects_app, ?config_writes_app,
    ?prompts_resolution, ?file_effects_resolution;
  try reflexivity.


(** [main] when the first update of the document raises. *)
Lemma main_ensure_raises (w : World) (f : string) (config : json) (e : exn) :
  find_claude_config w = Some f ->
  read_existing_config w f = Ok config ->
  ensure_mcpServers config = Raise e ->
  main w
  = (Uncaught e,
     {| pending := sys_stdin w;
        trace := banner
                 ++ [EPrint ("Found Claude Desktop configuration at: " ++ f)] |}).
Proof.
  intros Hf Hr He.
  change (main w) with
    (finish ((print "School-MCP Setup Helper" ;;
              print "======================" ;;
              print "This utility will help you configure Claude Desktop to use School-MCP." ;;
              setup_claude_config w) (initial_state w))).
  rewrite !run_print. unfold setup_claude_config. rewrite Hf.
  rewrite run_print, (run_lift _ _ _ _ Hr), (run_lift_raise _ _ _ _ He),
    !log_log.
  reflexivity.
Qed.



(** [main] when no configuration file is found. *)
Lemma main_not_found (w : World) :
  find_claude_config w = None ->
  main w
  = (Exit 1,
     {| pending := sys_stdin w;
        trace := banner ++ not_found_events ++ manual_events w |}).
Proof.
  intros Hf.
  change (main w) with
    (finish ((print "School-MCP Setup Helper" ;;
              print "======================" ;;
              print "This utility will help you configure Claude Desktop to use School-MCP." ;;
              setup_claude_config w) (initial_state w))).
  rewrite !run_print. unfold setup_claude_config. rewrite Hf.
  rewrite !run_print. unfold bind at 1.
  rewrite print_manual_instructions_run, ret_last, !log_log.
  reflexivity.
Qed.

(** X3: when no configuration file is found the run prints that, prints
    the manual instructions and exits with 1; it asks nothing, reads
    nothing and touches no file. *)
Theorem config_not_found_run (w : World) :
  find_claude_config w = None ->
  main w
  = (Exit 1,
     {| pending := sys_stdin w;
        trace := banner ++ not_found_events ++ manual_events w |})
  /\ asked w = []
  /\ effects w = [].
Proof.
  intros Hf. pose proof (main_not_found w Hf) as Hmain.
  split; [exact Hmain|]. split; observe Hmain.
Qed.

(** Required variables that are all there leave the credentials
    non-empty. *)
Lemma complete_nonempty (env_vars : dict string) :
  missing_vars env_vars = [] -> nonempty env_vars = true.
Proof. destruct env_vars; [discriminate|reflexivity]. Qed.

(** Off the host configurations the two updates raise [TypeError]. *)
Lemma not_host_config_raises (config entry : json) :
  host_config config = false -> merge config entry = Raise TypeError.
Proof.
  intros Hc. destruct (merge config entry) as [doc|e] eqn:Hm.
  - assert (host_config config = true)
      by (apply (merge_ok_iff config entry); eauto).
    congruence.
  - now rewrite (merge_raises _ _ _ Hm).
Qed.

(** X4: with the configuration file found and decoded, the package
    found and a credentials file that holds all four required
    variables, the run asks nothing and reads nothing.  When the
    document is a host configuration its one effect is to write the
    merged configuration, whose 'school-tools' entry carries the
    credentials as 'env', and it exits with 0 when the write succeeds
    and with 1 when it raises.  When the document is anything else, an
    object whose 'mcpServers' is not an object among them, the run ends
    on an uncaught [TypeError] and touches no file. *)
Theorem complete_credentials_run (w : World) (f : string) (config : json)
    (env_vars : dict string) :
  find_claude_config w = Some f ->
  read_existing_config w f = Ok config ->
  truthy_opt (get_package_path w) = true ->
  os_path_exists w (env_path w) = true ->
  load_env_file w (env_path w) = Ok env_vars ->
  missing_vars env_vars = [] ->
  asked w = []
  /\ unread w = sys_stdin w
  /\ if host_config config then
       exists doc entry,
         merge config
           (school_mcp_config (resolved_script w) (resolved_runtime w)
                              env_vars)
         = Ok doc
         /\ effects w = [EWriteConfig f doc]
         /\ server_entry doc "school-tools" = Some entry
         /\ top_level entry "env" = Some (env_json env_vars)
         /\ fst (main w) = match json_dump w f doc with
                           | None => Exit 0
                           | Some _ => Exit 1
                           end
     else fst (main w) = Uncaught TypeError /\ effects w = [].
Proof.
  intros Hf Hr Hp Hex Hload Hmiss.
  set (entry := school_mcp_config (resolved_script w) (resolved_runtime w)
                                  env_vars).
  destruct (host_config config) eqn:Hc.
  - destruct (host_config_updates config Hc) as (config1 & He & Hupd).
    destruct (Hupd entry) as (doc & Hadd & Hm).
    assert (Hmain := main_resolved w f config config1 Hf Hr He Hp).
    unfold bind at 1 in Hmain.
    rewrite (credentials_loaded w env_vars _ Hex Hload), Hmiss in Hmain.
    cbn [nonempty] in Hmain. unfold store_and_write in Hmain.
    fold entry in Hmain.
    rewrite (run_lift _ _ _ _ Hadd), finish_write in Hmain.
    assert (Henv : top_level entry "env" = Some (env_json env_vars)).
    { unfold entry. rewrite env_field.
      now rewrite (complete_nonempty _ Hmiss). }
    destruct (json_dump w f doc) as [e|] eqn:Hd;
      (split; [observe Hmain|]); (split; [observe Hmain|]);
      exists doc, entry;
      (split; [exact Hm|]); (split; [observe Hmain|]);
      (split; [exact (merge_stores_entry _ _ _ Hm)|]);
      (split; [exact Henv|]); now rewrite Hmain, Hd.
  - pose proof (not_host_config_raises config entry Hc) as Hm.
    destruct (ensure_mcpServers config) as [config1|e] eqn:He.
    + assert (Hadd : add_to_config config1 entry = Raise TypeError).
      { unfold merge in Hm. now rewrite He in Hm. }
      assert (Hmain := main_resolved w f config config1 Hf Hr He Hp).
      unfold bind at 1 in Hmain.
      rewrite (credentials_loaded w env_vars _ Hex Hload), Hmiss in Hmain.
      cbn [nonempty] in Hmain. unfold store_and_write in Hmain.
      fold entry in Hmain.
      rewrite (run_lift_raise _ _ _ _ Hadd) in Hmain.
      split; [observe Hmain|]. split; [observe Hmain|].
      split; [now rewrite Hmain|observe Hmain].
    + assert (e = TypeError) as ->.
      { unfold merge in Hm. rewrite He in Hm. now injection Hm. }
      pose proof (main_ensure_raises w f config TypeError Hf Hr He) as Hmain.
      split; [observe Hmain|]. split; [observe Hmain|].
      split; [now rewrite Hmain|observe Hmain].
Qed.


(** X6: the same question with the input at its end: [input] raises
    [EOFError], nothing catches it, and no file is touched. *)
Theorem incomplete_credentials_eof (w : World) (f : string) (config : json)
    (env_vars : dict string) :
  find_claude_config w = Some f ->
  read_existing_config w f = Ok config ->
  host_config config = true ->
  truthy_opt (get_package_path w) = true ->
  os_path_exists w (env_path w) = true ->
  load_env_file w (env_path w) = Ok env_vars ->
  nonempty (missing_vars env_vars) = true ->
  sys_stdin w = [] ->
  fst (main w) = Uncaught EOFError
  /\ asked w = [continue_prompt]
  /\ effects w = [].
Proof.
  intros Hf Hr Hc Hp Hex Hload Hmiss Hin.
  destruct (host_config_updates config Hc) as (config1 & He & _).
  assert (Hmain := main_resolved w f config config1 Hf Hr He Hp).
  unfold bind at 1 in Hmain.
  rewrite (credentials_loaded w env_vars _ Hex Hload), Hmiss in Hmain.
  cbn [pending] in Hmain. rewrite Hin in Hmain.
  split; [now rewrite Hmain|]. split; observe Hmain.
Qed.


(** X8: with a template and no credentials file the run first offers the
    template.  Yes is the default: it copies the template to '.env' and
    stops with exit 1.  When the offer is declined the run goes on to
    the question of the skeleton, and what it then creates, if asked to,
    is the skeleton and not the template. *)
Theorem template_run (w : World) (f : string) (config : json)
    (answer : string) (rest : list string) :
  find_claude_config w = Some f ->
  read_existing_config w f = Ok config ->
  host_config config = true ->
  truthy_opt (get_package_path w) = true ->
  os_path_exists w (env_path w) = false ->
  os_path_exists w (template_path w) = true ->
  sys_stdin w = answer :: rest ->
  if yes_by_default answer then
    asked w = [template_prompt]
    /\ unread w = rest
    /\ effects w = [ECopyFile (template_path w) (env_path w)]
    /\ fst (main w) = match shutil_copy w (template_path w) (env_path w) with
                      | None => Exit 1
                      | Some e => Uncaught e
                      end
  else
    asked w = [template_prompt; create_prompt]
    /\ match rest with
       | [] => fst (main w) = Uncaught EOFError /\ effects w = []
       | answer2 :: rest2 =>
           unread w = rest2
           /\ if yes_by_default answer2 then
                effects w = [EWriteText (env_path w) env_skeleton]
              else
                exists doc,
                  merge config
                    (school_mcp_config (resolved_script w)
                                       (resolved_runtime w) [])
                  = Ok doc
                  /\ effects w = [EWriteConfig f doc]
       end.
Proof.
  intros Hf Hr Hc Hp Hex Htpl Hin.
  destruct (host_config_updates config Hc) as (config1 & He & Hupd).
  destruct (Hupd (school_mcp_config (resolved_script w) (resolved_runtime w)
                                    [])) as (doc & Hadd & Hm).
  assert (Hmain := main_resolved w f config config1 Hf Hr He Hp).
  unfold bind at 1 in Hmain.
  pose proof (credentials_absent w
                {| pending := sys_stdin w;
                   trace := banner ++ resolution_events w f |}
                Hex) as Hcred.
  cbv zeta in Hcred. rewrite Hcred, Htpl in Hmain; clear Hcred;
    [|right; rewrite Hin; cbn [pending]; eauto].
  cbn [andb pending hd tl] in Hmain. rewrite Hin in Hmain.
  cbn [hd tl] in Hmain.
  destruct (yes_by_default answer).
  - destruct (shutil_copy w (template_path w) (env_path w)) as [e|];
      (split; [observe Hmain|]); (split; [observe Hmain|]);
      (split; [observe Hmain|now rewrite Hmain]).
  - destruct rest as [|answer2 rest2].
    + split; [observe Hmain|]. split; [now rewrite Hmain|observe Hmain].
    + destruct (yes_by_default answer2).
      * destruct (write_text w (env_path w) env_skeleton) as [e|];
          (split; [observe Hmain|]); (split; observe Hmain).
      * unfold store_and_write in Hmain.
        rewrite (run_lift _ _ _ _ Hadd), finish_write in Hmain.
        destruct (json_dump w f doc) as [e|];
          (split; [observe Hmain|]); (split; [observe Hmain|]);
          exists doc; (split; [exact Hm|observe Hmain]).
Qed.

(* ================================================================= *)
(** ** Stripping and splitting *)

Lemma lstrip_app (a : string) (c : ascii) (b : string) :
  PyStr.isspace c = false ->
  PyStr.lstrip (a ++ String c b) = (PyStr.lstrip a ++ String c b)%string.
Proof.
  intros H. induction a as [|x a IH]; cbn [append PyStr.lstrip].
  - now rewrite H.
  - now destruct (PyStr.isspace x).
Qed.

Lemma rstrip_app (a : string) (c : ascii) (b : string) :
  PyStr.isspace c = false ->
  PyStr.rstrip (a ++ String c b) = (a ++ String c (PyStr.rstrip b))%string.
Proof.
  intros H. induction a as [|x a IH]; cbn [append PyStr.rstrip].
  - destruct (PyStr.rstrip b); [now rewrite H|reflexivity].
  - rewrite IH. now destruct a.
Qed.

Lemma lstrip_idem (s : string) :
  PyStr.lstrip (PyStr.lstrip s) = PyStr.lstrip s.
Proof.
  induction s as [|c r IH]; cbn [PyStr.lstrip]; [reflexivity|].
  destruct (PyStr.isspace c) eqn:E; [exact IH|].
  cbn [PyStr.lstrip]. now rewrite E.
Qed.

Lemma rstrip_cons (c : ascii) (r : string) :
  PyStr.rstrip (String c r)
  = match PyStr.rstrip r with
    | EmptyString =>
        if PyStr.isspace c then EmptyString else String c EmptyString
    | String x t => String c (String x t)
    end.
Proof. cbn [PyStr.rstrip]. now destruct (PyStr.rstrip r). Qed.

Lemma rstrip_idem (s : string) :
  PyStr.rstrip (PyStr.rstrip s) = PyStr.rstrip s.
Proof.
  induction s as [|c r IH]; [reflexivity|].
  rewrite (rstrip_cons c r).
  destruct (PyStr.rstrip r) as [|x t] eqn:E.
  - destruct (PyStr.isspace c) eqn:Ec; [reflexivity|].
    rewrite rstrip_cons. cbn [PyStr.rstrip]. now rewrite Ec.
  - rewrite rstrip_cons, IH. reflexivity.
Qed.

Lemma lstrip_rstrip (s : string) :
  PyStr.lstrip (PyStr.rstrip s) = PyStr.rstrip (PyStr.lstrip s).
Proof.
  induction s as [|c r IH]; [reflexivity|].
  rewrite rstrip_cons. cbn [PyStr.lstrip].
  destruct (PyStr.isspace c) eqn:Ec.
  - rewrite <- IH. destruct (PyStr.rstrip r) as [|x t]; [reflexivity|].
    cbn [PyStr.lstrip]. now rewrite Ec.
  - rewrite rstrip_cons.
    destruct (PyStr.rstrip r) as [|x t]; cbn [PyStr.lstrip]; now rewrite Ec.
Qed.

(** Stripping twice is stripping once. *)
Lemma strip_idem (s : string) :
  PyStr.strip (PyStr.strip s) = PyStr.strip s.
Proof.
  unfold PyStr.strip.
  now rewrite lstrip_rstrip, lstrip_idem, rstrip_idem.
Qed.

Lemma strip_lstrip (s : string) :
  PyStr.strip (PyStr.lstrip s) = PyStr.strip s.
Proof. unfold PyStr.strip. now rewrite lstrip_idem. Qed.

Lemma strip_rstrip (s : string) :
  PyStr.strip (PyStr.rstrip s) = PyStr.strip s.
Proof. unfold PyStr.strip. now rewrite lstrip_rstrip, rstrip_idem. Qed.

Lemma split1_app (sep : ascii) (a b : string) :
  has_char sep a = false ->
  PyStr.split1 sep (a ++ String sep b) = [a; b].
Proof.
  induction a as [|x a IH]; cbn [append PyStr.split1 has_char].
  - now rewrite Ascii.eqb_refl.
  - intros H. apply orb_false_iff in H as [Hx Ha].
    now rewrite Hx, (IH Ha).
Qed.

Lemma split1_first (sep : ascii) (s a b : string) :
  PyStr.split1 sep s = [a; b] -> has_char sep a = false.
Proof.
  revert a. induction s as [|x s IH]; cbn [PyStr.split1]; [discriminate|].
  intros a. destruct (Ascii.eqb x sep) eqn:Ex.
  - now intros [= <- _].
  - destruct (PyStr.split1 sep s) as [|p [|q [|? ?]]]; try discriminate.
    intros [= <- <-]. cbn [has_char]. rewrite Ex. now apply IH.
Qed.

(* ================================================================= *)
(** ** What the parser makes of a line *)

(** The stripped form of a line KEY=VALUE. *)
Lemma strip_key_value (key value : string) :
  PyStr.strip (key ++ String "=" value)
  = (PyStr.lstrip key ++ String "=" (PyStr.rstrip value))%string.
Proof.
  unfold PyStr.strip.
  now rewrite lstrip_app, rstrip_app by reflexivity.
Qed.

Lemma key_value_step (key value : string) (rest : list string)
    (env_vars : dict string) :
  has_char "=" key = false ->
  PyStr.startswith "#" (PyStr.lstrip key) = false ->
  load_env_lines ((key ++ String "=" value)%string :: rest) env_vars
  = load_env_lines rest
      (dict_set (PyStr.strip key) (PyStr.strip value) env_vars).
Proof.
  intros Hkey Hcomment. cbn [load_env_lines].
  rewrite strip_key_value.
  assert (Hskip : negb (PyStr.truthy
                          (PyStr.lstrip key ++ String "=" (PyStr.rstrip value)))
                  || PyStr.startswith "#"
                       (PyStr.lstrip key ++ String "=" (PyStr.rstrip value))
                  = false).
  { unfold PyStr.startswith in *.
    destruct (PyStr.lstrip key) as [|c k]; [reflexivity|].
    cbn [append PyStr.truthy negb orb String.prefix] in *.
    destruct (ascii_dec "#" c); [|reflexivity].
    destruct k; discriminate Hcomment. }
  rewrite Hskip.
  rewrite split1_app by now apply has_char_lstrip.
  cbn [unpack2 rbind fst snd].
  now rewrite strip_lstrip, strip_rstrip.
Qed.

(** X9: a line KEY=VALUE whose key part holds no '=' and is no comment
    sets the stripped key to the stripped value; the value is everything
    after the first '=', further '=' included. *)
Theorem key_value_line (key value : string) (rest : list string)
    (env_vars : dict string) :
  has_char "=" key = false ->
  PyStr.startswith "#" (PyStr.lstrip key) = false ->
  load_env_lines ((key ++ String "=" value)%string :: rest) env_vars
  = load_env_lines rest
      (dict_set (PyStr.strip key) (PyStr.strip value) env_vars).
Proof.
  intros Hkey Hcomment. now apply key_value_step.
Qed.

Lemma dict_set_Forall {V} (P : string * V -> Prop) (k : string) (v : V)
    (d : dict V) :
  P (k, v) -> Forall P d -> Forall P (dict_set k v d).
Proof.
  intros Hkv. induction 1 as [|[k' v'] r Hx Hr IH]; cbn [dict_set].
  - now constructor.
  - destruct (String.eqb_spec k' k) as [->|Hne]; constructor; auto.
Qed.

Lemma load_env_lines_clean (lines : list string) :
  forall env_vars env_vars',
    clean_env env_vars ->
    load_env_lines lines env_vars = Ok env_vars' ->
    clean_env env_vars'.
Proof.
  induction lines as [|line rest IH]; cbn [load_env_lines];
    intros env_vars env_vars' Hclean.
  - now intros [= <-].
  - destruct (negb _ || PyStr.startswith _ _); [now apply IH|].
    destruct (PyStr.split1 "=" (PyStr.strip line))
      as [|a [|b [|? ?]]] eqn:Hs; try discriminate.
    cbn [unpack2 rbind fst snd]. apply IH.
    apply dict_set_Forall; [|exact Hclean].
    repeat split; cbn [fst snd].
    + apply strip_idem.
    + apply has_char_strip. eapply split1_first, Hs.
    + apply strip_idem.
Qed.

(** X10: whatever the file, the mapping [load_env_file] returns is clean: no
    key and no value has whitespace around it, and no key holds an
    '='. *)
Theorem load_env_file_clean (w : World) (path : string)
    (env_vars : dict string) :
  load_env_file w path = Ok env_vars -> clean_env env_vars.
Proof.
  unfold load_env_file.
  destruct (os_path_exists w path); [|intros [= <-]; constructor].
  destruct (read_text w path) as [text|e]; [|discriminate].
  cbn [rbind]. apply load_env_lines_clean. constructor.
Qed.

(** The parser is a fold over the lines: parsing two runs of lines one
    after the other is parsing the second into the mapping of the
    first, and a failure of the first is the failure of the whole. *)
Lemma load_env_lines_app (lines1 lines2 : list string) :
  forall env_vars,
    load_env_lines (lines1 ++ lines2) env_vars
    = (let? env_vars' := load_env_lines lines1 env_vars in
       load_env_lines lines2 env_vars')%result.
Proof.
  induction lines1 as [|line rest IH]; intros env_vars;
    cbn [app load_env_lines]; [reflexivity|].
  destruct (negb _ || PyStr.startswith _ _); [apply IH|].
  destruct (unpack2 _) as [kv|e]; cbn [rbind]; [apply IH|reflexivity].
Qed.

(** X11: the last assignment wins: a line KEY=VALUE after lines that parse
    gives the key its value, whatever the earlier lines gave it, and
    leaves every other key as it was. *)
Theorem last_assignment_wins (lines : list string) (key value : string)
    (env_vars env_vars1 : dict string) :
  load_env_lines lines env_vars = Ok env_vars1 ->
  has_char "=" key = false ->
  PyStr.startswith "#" (PyStr.lstrip key) = false ->
  exists env_vars2,
    load_env_lines (lines ++ [(key ++ String "=" value)%string]) env_vars
    = Ok env_vars2
    /\ dict_get (PyStr.strip key) env_vars2 = Some (PyStr.strip value)
    /\ (forall other, other <> PyStr.strip key ->
                      dict_get other env_vars2 = dict_get other env_vars1)
    /\ dict_keys env_vars2
       = if dict_in (PyStr.strip key) env_vars1 then dict_keys env_vars1
         else dict_keys env_vars1 ++ [PyStr.strip key].
Proof.
  intros Hlines Hkey Hcomment.
  exists (dict_set (PyStr.strip key) (PyStr.strip value) env_vars1).
  rewrite load_env_lines_app, Hlines. cbn [rbind].
  rewrite key_value_step by assumption. cbn [load_env_lines].
  split; [reflexivity|]. split; [apply dict_get_set_same|]. split.
  - intros other Hne. apply dict_get_set_other. congruence.
  - destruct (dict_in (PyStr.strip key) env_vars1) eqn:E.
    + now apply dict_keys_set_present.
    + now apply dict_keys_set_absent.
Qed.

(** X12: the skeleton the helper writes parses to all four required
    variables, with exactly the placeholder values of the manual
    instructions: a run on the untouched skeleton finds nothing
    missing. *)
Theorem skeleton_is_complete (w : World) (path : string) :
  os_path_exists w path = true ->
  read_text w path = Ok env_skeleton ->
  exists env_vars,
    load_env_file w path = Ok env_vars
    /\ dict_keys env_vars = required_vars
    /\ missing_vars env_vars = []
    /\ env_json env_vars = placeholder_env.
Proof.
  intros Hex Hread. unfold load_env_file. rewrite Hex, Hread.
  eexists. split; [vm_compute; reflexivity|].
  split; [reflexivity|]. split; reflexivity.
Qed.

(* ================================================================= *)
(** ** Locating the configuration file *)

Lemma possible_locations_short (w : World) :
  length (possible_locations w) <= 1.
Proof.
  unfold possible_locations.
  destruct (sys_platform w); cbn [length]; try lia.
  destruct (PyStr.truthy _); cbn [length]; lia.
Qed.

(** X1: each platform has at most one candidate location;
    [find_claude_config] returns a location exactly when it is that
    candidate and exists, and nothing exactly when no candidate
    exists. *)
Theorem find_claude_config_spec (w : World) :
  length (possible_locations w) <= 1
  /\ (forall f, find_claude_config w = Some f <->
                possible_locations w = [f] /\ os_path_exists w f = true)
  /\ (find_claude_config w = None <->
      forall f, In f (possible_locations w) -> os_path_exists w f = false).
Proof.
  split; [apply possible_locations_short|].
  pose proof (possible_locations_short w) as Hlen.
  unfold find_claude_config.
  destruct (possible_locations w) as [|c [|c' r]]; cbn [length] in Hlen;
    [| |lia]; cbn [find In].
  - split.
    + intros f. split; [discriminate|]. now intros [[=] _].
    + split; [|reflexivity]. now intros _ f [].
  - destruct (os_path_exists w c) eqn:E; split.
    + intros f. split.
      * now intros [= <-].
      * now intros [[= <-] _].
    + split; [discriminate|]. intros H.
      specialize (H c (or_introl eq_refl)). congruence.
    + intros f. split; [discriminate|]. intros [[= <-] H]. congruence.
    + split; [|reflexivity]. intros _ f [<-|[]]. exact E.
Qed.

(** X2: on Windows, with APPDATA unset or empty, there is no candidate:
    whatever files exist the run ends with exit 1 after the manual
    instructions, and touches nothing. *)
Theorem windows_without_appdata (w : World) :
  sys_platform w = Win32 ->
  environ_get w "APPDATA" = None
  \/ environ_get w "APPDATA" = Some EmptyString ->
  find_claude_config w = None
  /\ fst (main w) = Exit 1
  /\ In manual_heading (printed w)
  /\ effects w = [].
Proof.
  intros Hwin Henv.
  assert (Hf : find_claude_config w = None).
  { unfold find_claude_config, possible_locations. rewrite Hwin.
    now destruct Henv as [-> | ->]. }
  pose proof (main_not_found w Hf) as Hmain.
  split; [exact Hf|]. split; [now rewrite Hmain|].
  split; [|observe Hmain].
  unfold printed. rewrite Hmain. cbn [snd trace].
  rewrite !prints_app, !in_app_iff. right. right. left. reflexivity.
Qed.

(* ================================================================= *)
(** ** The manual instructions *)

(** X13: [print_manual_instructions] never raises, asks nothing and touches
    no file; the example it prints has, under 'school-tools', the
    command and the arguments of the entry a run would store, and as
    'env' a placeholder for each required variable. *)
Theorem manual_instructions_spec (w : World) (st : state)
    (env_vars : dict string) :
  print_manual_instructions w st = (Ok tt, log st (manual_events w))
  /\ prompts (manual_events w) = []
  /\ file_effects (manual_events w) = []
  /\ exists example,
       server_entry (config_example (resolved_script w) (resolved_runtime w))
                    "school-tools" = Some example
       /\ top_level example "command"
          = top_level (school_mcp_config (resolved_script w)
                         (resolved_runtime w) env_vars) "command"
       /\ top_level example "args"
          = top_level (school_mcp_config (resolved_script w)
                         (resolved_runtime w) env_vars) "args"
       /\ top_level example "env" = Some placeholder_env
       /\ match placeholder_env with
          | JDict fields => dict_keys fields = required_vars
          | _ => False
          end.
Proof.
  split; [apply print_manual_instructions_run|].
  split; [reflexivity|]. split; [reflexivity|].
  unfold config_example, school_mcp_config, server_entry, top_level.
  cbn [dict_get String.eqb Ascii.eqb Bool.eqb].
  destruct (resolved_script w) as [p|]; cbn [truthy_opt];
    [destruct (PyStr.truthy p)|]; destruct (nonempty env_vars);
    eexists; (split; [reflexivity|]); repeat split.
Qed.

(* ================================================================= *)
(** ** Where the package path comes from *)

(** X14: a path [get_package_path] returns is the directory of the imported
    package, or, when the import fails, the package directory that
    exists under a site-packages directory or under 'src' in the working
    directory, or one the walk of the working directory lists. *)
Theorem get_package_path_sound (w : World) (p : string) :
  get_package_path w = Some p ->
  import_school_mcp w = Some p
  \/ (import_school_mcp w = None
      /\ ((exists site_dir,
             In site_dir (site_getsitepackages w)
             /\ p = os_path_join w site_dir package_name
             /\ os_path_exists w p = true)
          \/ (p = os_path_join w (os_path_join w (os_getcwd w) "src")
                               package_name
              /\ os_path_exists w p = true)
          \/ (exists root dirs,
                In (root, dirs) (os_walk w (os_getcwd w))
                /\ In package_name dirs
                /\ p = os_path_join w root package_name))).
Proof.
  unfold get_package_path.
  destruct (import_school_mcp w) as [d|]; [intros [= <-]; now left|].
  intros H. right. split; [reflexivity|].
  destruct (find _ (site_getsitepackages w)) as [site_dir|] eqn:E1.
  - injection H as <-. apply find_some in E1 as [Hin Hex].
    left. now exists site_dir.
  - destruct (os_path_exists w _) eqn:E2.
    + injection H as <-. right. left. now split.
    + destruct (find _ (os_walk w _)) as [[root dirs]|] eqn:E3;
        [|discriminate].
      injection H as <-. apply find_some in E3 as [Hin Hex].
      right. right. exists root, dirs. split; [exact Hin|].
      split; [|reflexivity]. cbn [snd] in Hex.
      apply existsb_exists in Hex as (x & Hx & Heq).
      apply String.eqb_eq in Heq. now subst.
Qed.

(* ================================================================= *)
(** ** Where the runtime comes from *)

Lemma resolved_alternates_in (w : World) (cmds : list string) (p : string) :
  In p (resolved_alternates w cmds) ->
  exists cmd, In cmd cmds /\ shutil_which w cmd = Some p.
Proof.
  unfold resolved_alternates. rewrite in_flat_map.
  intros (cmd & Hin & Hp). exists cmd. split; [exact Hin|].
  destruct (shutil_which w cmd) as [q|]; [|destruct Hp].
  destruct (PyStr.truthy q); [|destruct Hp].
  destruct Hp as [<-|[]]. reflexivity.
Qed.

(** X15: the runtime [find_python_executable] returns is the current one, or
    else the search path's resolution of one of the six fixed names, and
    then its probe succeeded; and when the probe of the current runtime
    succeeds the current runtime is returned whatever the search path
    holds. *)
Theorem find_python_executable_sound (w : World) (python_path : string) :
  find_python_executable w = Ok python_path ->
  (python_path = sys_executable w
   \/ (exists python_cmd,
         In python_cmd common_pythons
         /\ shutil_which w python_cmd = Some python_path
         /\ probe_succeeds w python_path = true))
  /\ (probe_succeeds w (sys_executable w) = true ->
      python_path = sys_executable w).
Proof.
  rewrite find_python_executable_ok. intros [= <-].
  unfold resolved_runtime, candidates. cbn [find].
  destruct (probe_succeeds w (sys_executable w)) eqn:E.
  - split; [now left|reflexivity].
  - split; [|discriminate].
    destruct (find _ _) as [p|] eqn:Ef; [|now left].
    apply find_some in Ef as [Hin Hp].
    destruct (resolved_alternates_in w _ p Hin) as (cmd & Hc & Hw).
    right. now exists cmd.
Qed.

(* ================================================================= *)
(** ** The entry with a launcher *)

(** X16: with a launcher resolved, every entry a run writes is the direct
    form: its command is the launcher and it has no 'args'. *)
Theorem launcher_entry (w : World) (f : string) (doc : json) :
  truthy_opt (resolved_script w) = true ->
  In (f, doc) (written w) ->
  exists script_path entry,
    resolved_script w = Some script_path
    /\ server_entry doc "school-tools" = Some entry
    /\ top_level entry "command" = Some (JStr script_path)
    /\ top_level entry "args" = None.
Proof.
  intros Hs Hin.
  destruct (written_is_merge w f doc Hin)
    as (config & env_vars & _ & _ & _ & _ & Hm).
  destruct (resolved_script w) as [p|] eqn:E; [|discriminate].
  cbn [truthy_opt] in Hs.
  exists p. eexists. split; [reflexivity|].
  split; [exact (merge_stores_entry _ _ _ Hm)|].
  unfold school_mcp_config, top_level. rewrite Hs.
  destruct (nonempty env_vars); split; reflexivity.
Qed.

(** X17: a run that exits with 0 found the configuration file, read a host
    configuration from it (or started from the empty one) and found the
    package. *)
Theorem success_requires (w : World) :
  fst (main w) = Exit 0 ->
  exists f config,
    find_claude_config w = Some f
    /\ read_existing_config w f = Ok config
    /\ host_config config = true
    /\ get_package_path w <> None.
Proof.
  intros Hexit.
  destruct (main_spec w) as (r & evs & Hs & Ht & Hw & _).
  rewrite Ht in Hexit.
  destruct Hs as [_ Hr | f config doc env_vars Hf Hread Hp _ Hm _ _].
  - destruct r as [[]|e]; [contradiction|discriminate..].
  - exists f, config. repeat split; auto.
    + eapply (proj1 (merge_ok_iff config _)). eexists. exact Hm.
    + intros Hnone. rewrite Hnone in Hp. discriminate.
Qed.

(* ================================================================= *)
(** ** The order of the keys *)

Lemma dict_in_keys {V} (k : string) (d : dict V) :
  dict_in k d = existsb (String.eqb k) (dict_keys d).
Proof.
  unfold dict_in, dict_keys.
  induction d as [|[k' v] r IH]; cbn [dict_get map fst existsb];
    [reflexivity|].
  rewrite (String.eqb_sym k k'). now destruct (String.eqb k' k).
Qed.

Lemma NoDup_snoc {A} (l : list A) (x : A) :
  NoDup l -> ~ In x l -> NoDup (l ++ [x]).
Proof.
  induction 1 as [|y l Hy Hl IH]; cbn [app]; intros Hx.
  - constructor; [intros []|constructor].
  - constructor.
    + rewrite in_app_iff. intros [H|[H|[]]]; [contradiction|].
      apply Hx. now left.
    + apply IH. intros H. apply Hx. now right.
Qed.

Lemma dict_set_NoDup {V} (k : string) (v : V) (d : dict V) :
  NoDup (dict_keys d) -> NoDup (dict_keys (dict_set k v d)).
Proof.
  intros Hd. destruct (dict_in k d) eqn:E.
  - now rewrite dict_keys_set_present.
  - rewrite dict_keys_set_absent by exact E.
    apply NoDup_snoc; [exact Hd|].
    rewrite dict_in_keys in E. intros Hin.
    assert (existsb (String.eqb k) (dict_keys d) = true).
    { apply existsb_exists. exists k. split; [exact Hin|].
      apply String.eqb_refl. }
    congruence.
Qed.

(** X18: the merge keeps the order of the top-level keys and of the servers:
    'mcpServers' and 'school-tools' stay where they are when they are
    there, and go last when they are new; and it never repeats a key. *)
Theorem merge_keeps_order (d d' : dict json) (entry : json) :
  merge (JDict d) entry = Ok (JDict d') ->
  dict_keys d' = (if dict_in "mcpServers" d then dict_keys d
                  else dict_keys d ++ ["mcpServers"])
  /\ server_names (JDict d')
     = (if existsb (String.eqb "school-tools") (server_names (JDict d))
        then server_names (JDict d)
        else server_names (JDict d) ++ ["school-tools"])
  /\ (NoDup (dict_keys d) -> NoDup (dict_keys d'))
  /\ (NoDup (server_names (JDict d)) -> NoDup (server_names (JDict d'))).
Proof.
  intros Hm. split; [now apply (merge_key_order d d' entry)|].
  rewrite merge_dict in Hm. unfold server_names, top_level.
  destruct (dict_get "mcpServers" d) as [[| | | | | |servers]|] eqn:E;
    try discriminate; injection Hm as <-; rewrite dict_get_set_same.
  - split; [|split].
    + rewrite <- dict_in_keys.
      destruct (dict_in "school-tools" servers) eqn:Es.
      * now apply dict_keys_set_present.
      * now apply dict_keys_set_absent.
    + apply dict_set_NoDup.
    + apply dict_set_NoDup.
  - split; [reflexivity|]. split.
    + apply dict_set_NoDup.
    + intros _. repeat constructor. intros [].
Qed.

(* ================================================================= *)
(** ** The further theorems on the sample worlds *)

Ltac by_computation := vm_compute; reflexivity.

Lemma config_not_found_sample :
  main Scene.no_config
  = (Exit 1,
     {| pending := sys_stdin Scene.no_config;
        trace := banner ++ not_found_events ++ manual_events Scene.no_config |})
  /\ asked Scene.no_config = []
  /\ effects Scene.no_config = [].
Proof.
  assert (Hf : find_claude_config Scene.no_config = None) by by_computation.
  exact (config_not_found_run Scene.no_config Hf).
Defined.

Lemma windows_without_appdata_sample :
  find_claude_config Scene.windows = None
  /\ fst (main Scene.windows) = Exit 1
  /\ In manual_heading (printed Scene.windows)
  /\ effects Scene.windows = [].
Proof.
  exact (windows_without_appdata Scene.windows eq_refl (or_intror eq_refl)).
Defined.

Lemma complete_credentials_sample :
  (asked Sample.ready = []
   /\ unread Sample.ready = []
   /\ exists doc,
        effects Sample.ready = [EWriteConfig Sample.config_file doc]
        /\ fst (main Sample.ready) = Exit 0)
  /\ (host_config (JDict [("theme", JStr "dark"); ("mcpServers", JList [])])
      = false
      /\ fst (main servers_list_config) = Uncaught TypeError
      /\ effects servers_list_config = []).
Proof.
  assert (Hf : find_claude_config Sample.ready = Some Sample.config_file)
    by by_computation.
  assert (Hp : truthy_opt (get_package_path Sample.ready) = true)
    by by_computation.
  assert (Hex : os_path_exists Sample.ready (env_path Sample.ready) = true)
    by by_computation.
  assert (Hl : load_env_file Sample.ready (env_path Sample.ready)
               = Ok Scene.full_env_vars) by by_computation.
  split.
  - destruct (complete_credentials_run Sample.ready Sample.config_file
                Sample.existing Scene.full_env_vars
                Hf eq_refl Hp Hex Hl eq_refl) as (Ha & Hu & Hrun).
    change (host_config Sample.existing) with true in Hrun. cbv iota in Hrun.
    destruct Hrun as (doc & entry & _ & He & _ & _ & Hexit).
    split; [exact Ha|]. split; [exact Hu|].
    exists doc. split; [exact He|exact Hexit].
  - destruct (complete_credentials_run servers_list_config Sample.config_file
                (JDict [("theme", JStr "dark"); ("mcpServers", JList [])])
                Scene.full_env_vars
                Hf eq_refl Hp Hex Hl eq_refl) as (_ & _ & Hrun).
    split; [reflexivity|exact Hrun].
Defined.


Lemma incomplete_credentials_eof_sample :
  fst (main Scene.incomplete_eof) = Uncaught EOFError
  /\ asked Scene.incomplete_eof = [continue_prompt]
  /\ effects Scene.incomplete_eof = [].
Proof.
  assert (Hf : find_claude_config Scene.incomplete_eof
               = Some Sample.config_file) by by_computation.
  assert (Hp : truthy_opt (get_package_path Scene.incomplete_eof) = true)
    by by_computation.
  assert (Hex : os_path_exists Scene.incomplete_eof
                  (env_path Scene.incomplete_eof) = true) by by_computation.
  assert (Hl : load_env_file Scene.incomplete_eof
                 (env_path Scene.incomplete_eof) = Ok Scene.one_var)
    by by_computation.
  exact (incomplete_credentials_eof Scene.incomplete_eof Sample.config_file
           Sample.existing Scene.one_var
           Hf eq_refl eq_refl Hp Hex Hl eq_refl eq_refl).
Defined.


Lemma template_sample :
  asked Scene.with_template = [template_prompt]
  /\ unread Scene.with_template = []
  /\ effects Scene.with_template
     = [ECopyFile (template_path Scene.with_template)
                  (env_path Scene.with_template)]
  /\ fst (main Scene.with_template) = Exit 1.
Proof.
  assert (Hf : find_claude_config Scene.with_template
               = Some Sample.config_file) by by_computation.
  assert (Hp : truthy_opt (get_package_path Scene.with_template) = true)
    by by_computation.
  assert (Hex : os_path_exists Scene.with_template
                  (env_path Scene.with_template) = false) by by_computation.
  assert (Ht : os_path_exists Scene.with_template
                 (template_path Scene.with_template) = true)
    by by_computation.
  pose proof (template_run Scene.with_template Sample.config_file
                Sample.existing EmptyString []
                Hf eq_refl eq_refl Hp Hex Ht eq_refl) as H.
  change (yes_by_default EmptyString) with true in H. cbv iota in H.
  exact H.
Defined.

Lemma key_value_line_sample :
  load_env_lines ["  TOKEN = a=b=c  " ++ nl]%string []
  = Ok [("TOKEN", "a=b=c")].
Proof.
  exact (key_value_line "  TOKEN " (" a=b=c  " ++ nl) [] [] eq_refl eq_refl).
Defined.

Lemma load_env_file_clean_sample : clean_env Scene.full_env_vars.
Proof.
  assert (Hl : load_env_file Sample.ready (env_path Sample.ready)
               = Ok Scene.full_env_vars) by by_computation.
  exact (load_env_file_clean Sample.ready (env_path Sample.ready)
           Scene.full_env_vars Hl).
Defined.

Lemma last_assignment_wins_sample :
  exists env_vars2,
    load_env_lines (["A=1" ++ nl; "B=2" ++ nl]%string
                    ++ [("A" ++ String "=" "3")%string])
                   []
    = Ok env_vars2
    /\ dict_get (PyStr.strip "A") env_vars2 = Some (PyStr.strip "3")
    /\ (forall other, other <> PyStr.strip "A" ->
                      dict_get other env_vars2
                      = dict_get other [("A", "1"); ("B", "2")])
    /\ dict_keys env_vars2
       = if dict_in (PyStr.strip "A") [("A", "1"); ("B", "2")]
         then dict_keys [("A", "1"); ("B", "2")]
         else dict_keys [("A", "1"); ("B", "2")] ++ [PyStr.strip "A"].
Proof.
  exact (last_assignment_wins ["A=1" ++ nl; "B=2" ++ nl]%string "A" "3" []
           [("A", "1"); ("B", "2")] eq_refl eq_refl eq_refl).
Defined.

Lemma skeleton_sample :
  exists env_vars,
    load_env_file Scene.with_skeleton Sample.dot_env = Ok env_vars
    /\ dict_keys env_vars = required_vars
    /\ missing_vars env_vars = []
    /\ env_json env_vars = placeholder_env.
Proof.
  exact (skeleton_is_complete Scene.with_skeleton Sample.dot_env
           eq_refl eq_refl).
Defined.

Lemma get_package_path_sample :
  import_school_mcp Sample.ready = Some Sample.package_dir
  \/ (import_school_mcp Sample.ready = None
      /\ ((exists site_dir,
             In site_dir (site_getsitepackages Sample.ready)
             /\ Sample.package_dir
                = os_path_join Sample.ready site_dir package_name
             /\ os_path_exists Sample.ready Sample.package_dir = true)
          \/ (Sample.package_dir
              = os_path_join Sample.ready
                  (os_path_join Sample.ready (os_getcwd Sample.ready) "src")
                  package_name
              /\ os_path_exists Sample.ready Sample.package_dir = true)
          \/ (exists root dirs,
                In (root, dirs) (os_walk Sample.ready (os_getcwd Sample.ready))
                /\ In package_name dirs
                /\ Sample.package_dir
                   = os_path_join Sample.ready root package_name))).
Proof.
  exact (get_package_path_sound Sample.ready Sample.package_dir eq_refl).
Defined.

Lemma find_python_executable_sound_sample :
  ("/usr/bin/python3" = sys_executable Sample.ready
   \/ (exists python_cmd,
         In python_cmd common_pythons
         /\ shutil_which Sample.ready python_cmd = Some "/usr/bin/python3"
         /\ probe_succeeds Sample.ready "/usr/bin/python3" = true))
  /\ (probe_succeeds Sample.ready (sys_executable Sample.ready) = true ->
      "/usr/bin/python3" = sys_executable Sample.ready).
Proof.
  assert (H : find_python_executable Sample.ready = Ok "/usr/bin/python3")
    by by_computation.
  exact (find_python_executable_sound Sample.ready "/usr/bin/python3" H).
Defined.

Lemma success_requires_sample :
  exists f config,
    find_claude_config Sample.ready = Some f
    /\ read_existing_config Sample.ready f = Ok config
    /\ host_config config = true
    /\ get_package_path Sample.ready <> None.
Proof.
  assert (H : fst (main Sample.ready) = Exit 0) by by_computation.
  exact (success_requires Sample.ready H).
Defined.

Lemma merge_keeps_order_sample :
  dict_keys [("theme", JStr "dark"); ("mcpServers", JDict [("school-tools", JNull)])]
  = (if dict_in "mcpServers" [("theme", JStr "dark")]
     then dict_keys [("theme", JStr "dark")]
     else dict_keys [("theme", JStr "dark")] ++ ["mcpServers"]).
Proof.
  exact (proj1 (merge_keeps_order [("theme", JStr "dark")]
                  [("theme", JStr "dark");
                   ("mcpServers", JDict [("school-tools", JNull)])]
                  JNull eq_refl)).
Defined.

Lemma launcher_entry_sample :
  exists script_path entry,
    resolved_script Scene.with_launcher = Some script_path
    /\ server_entry launcher_doc "school-tools" = Some entry
    /\ top_level entry "command" = Some (JStr script_path)
    /\ top_level entry "args" = None.
Proof.
  assert (Hs : truthy_opt (resolved_script Scene.with_launcher) = true)
    by by_computation.
  assert (Hin : In (Sample.config_file, launcher_doc)
                   (written Scene.with_launcher))
    by (vm_compute; left; reflexivity).
  exact (launcher_entry Scene.with_launcher Sample.config_file launcher_doc
           Hs Hin).
Defined.
